(** * PALETTE.CPP: palette helper routines over a model of the GDI

    A shallow embedding of [Source/Plot/Accessary/Dib/PALETTE.CPP].  The
    routines marshal colour tables between the [RGBQUAD] and the
    [PALETTEENTRY] layout and hand them to the graphics subsystem.  The
    subsystem itself (device contexts, palette objects, the global heap) is
    not part of the file; it is modelled below as an explicit [World] that
    every call threads through, with [None] standing for undefined
    behaviour of the C program (an access outside an array, the use of an
    indeterminate value, signed overflow). *)

From stdpp Require Import gmap list.
From Stdlib Require Import ZArith Lia.

Local Open Scope Z_scope.

(** ** Machine data *)

(** A [BYTE] is an 8-bit unsigned value, a [WORD] a 16-bit one; both are
    carried as [Z] and every arithmetic result is reduced explicitly. *)
Definition BYTE_MOD : Z := 256.
Definition WORD_MOD : Z := 65536.
Definition INT_MIN : Z := - 2147483648.
Definition INT_MAX : Z := 2147483647.

Definition to_BYTE (z : Z) : Z := z mod BYTE_MOD.
Definition to_WORD (z : Z) : Z := z mod WORD_MOD.

(** [int] subtraction; signed overflow is undefined. *)
Definition int_sub (a b : Z) : option Z :=
  if decide (INT_MIN <= a - b <= INT_MAX) then Some (a - b) else None.

(** [int] division truncates towards zero. *)
Definition int_div (a b : Z) : Z := Z.quot a b.

(** Handles are opaque; 0 is [NULL]. *)
Definition HPALETTE : Type := N.
Definition HDC : Type := N.
Definition NULL : N := 0%N.

(** <wingdi.h>: field order of the two colour records. *)
Record RGBQUAD : Type := mkRGBQUAD
  { rgbBlue : Z; rgbGreen : Z; rgbRed : Z; rgbReserved : Z }.

Record PALETTEENTRY : Type := mkPALETTEENTRY
  { peRed : Z; peGreen : Z; peBlue : Z; peFlags : Z }.

Record LOGPALETTE : Type := mkLOGPALETTE
  { palVersion : Z; palNumEntries : Z; palPalEntry : list PALETTEENTRY }.

Definition set_peRed (v : Z) (e : PALETTEENTRY) : PALETTEENTRY :=
  mkPALETTEENTRY v (peGreen e) (peBlue e) (peFlags e).
Definition set_peGreen (v : Z) (e : PALETTEENTRY) : PALETTEENTRY :=
  mkPALETTEENTRY (peRed e) v (peBlue e) (peFlags e).
Definition set_peBlue (v : Z) (e : PALETTEENTRY) : PALETTEENTRY :=
  mkPALETTEENTRY (peRed e) (peGreen e) v (peFlags e).
Definition set_peFlags (v : Z) (e : PALETTEENTRY) : PALETTEENTRY :=
  mkPALETTEENTRY (peRed e) (peGreen e) (peBlue e) v.

Definition set_rgbBlue (v : Z) (q : RGBQUAD) : RGBQUAD :=
  mkRGBQUAD v (rgbGreen q) (rgbRed q) (rgbReserved q).
Definition set_rgbRed (v : Z) (q : RGBQUAD) : RGBQUAD :=
  mkRGBQUAD (rgbBlue q) (rgbGreen q) v (rgbReserved q).
Definition set_rgbReserved (v : Z) (q : RGBQUAD) : RGBQUAD :=
  mkRGBQUAD (rgbBlue q) (rgbGreen q) (rgbRed q) v.

(** The four bytes of each record, in memory order. *)
Definition PALETTEENTRY_bytes (e : PALETTEENTRY) : list Z :=
  [peRed e; peGreen e; peBlue e; peFlags e].
Definition RGBQUAD_bytes (q : RGBQUAD) : list Z :=
  [rgbBlue q; rgbGreen q; rgbRed q; rgbReserved q].

(** What an [RGBQUAD] lvalue reads after a [PALETTEENTRY] was stored at its
    address through the cast [(LPPALETTEENTRY)rgbqPalette]. *)
Definition as_RGBQUAD (e : PALETTEENTRY) : RGBQUAD :=
  mkRGBQUAD (peRed e) (peGreen e) (peBlue e) (peFlags e).

Definition zero_entry : PALETTEENTRY := mkPALETTEENTRY 0 0 0 0.

(** The colour of an entry, without its flag or reserved byte. *)
Definition pe_rgb (e : PALETTEENTRY) : Z * Z * Z := (peRed e, peGreen e, peBlue e).
Definition quad_rgb (q : RGBQUAD) : Z * Z * Z := (rgbRed q, rgbGreen q, rgbBlue q).

(** ** Constants *)

(** <wingdi.h> *)
Definition PC_NOCOLLAPSE : Z := 4.
Definition SYSPAL_ERROR : Z := 0.
Definition SYSPAL_STATIC : Z := 1.
Definition SYSPAL_NOSTATIC : Z := 2.
Definition RC_PALETTE : Z := 256.
Definition NUMCOLORS : Z := 24.
Definition RASTERCAPS : Z := 38.
Definition SIZEPALETTE : Z := 104.
Definition sizeof_PALETTEENTRY : Z := 4.
Definition sizeof_LOGPALETTE : Z := 8.

(** Modelled from the spec: palette.h is not in the source tree.  The
    descriptors of [CreateSpectrumPalette], [CreateIdentityPalette] and
    [ClearSystemPalette] are "exactly 256 entries", so [MAXPALETTE] is 256. *)
Definition MAXPALETTE : Z := 256.

(** Modelled from the spec: palette.h is not in the source tree.  The
    "fixed palette-format constant"; the two routines that do not use the
    macro write 0x300. *)
Definition PALVERSION : Z := 768.

(** ** Arrays and counting loops *)

(** [a[i]] as an rvalue and [a[i] = f(a[i])]; outside the array both are
    undefined. *)
Definition arr_get {A} (a : list A) (i : Z) : option A :=
  if decide (0 <= i) then a !! Z.to_nat i else None.

Definition arr_upd {A} (f : A -> A) (i : Z) (a : list A) : option (list A) :=
  if decide (0 <= i < Z.of_nat (length a))
  then Some (alter f (Z.to_nat i) a) else None.

(** [for (i = lo; i < hi; i++) body], for a body that leaves [i] and [hi]
    alone: [Z.to_nat (hi - lo)] iterations, after which [i] is
    [Z.max lo hi]. *)
Fixpoint for_range {S} (n : nat) (i : Z) (body : Z -> S -> option S) (s : S)
  : option S :=
  match n with
  | O => Some s
  | S n' => match body i s with
            | Some s' => for_range n' (i + 1) body s'
            | None => None
            end
  end.

Definition for_loop {S} (lo hi : Z) (body : Z -> S -> option S) (s : S)
  : option S :=
  for_range (Z.to_nat (hi - lo)) lo body s.

Definition loop_exit (lo hi : Z) : Z := Z.max lo hi.

(** [CopyMemory(dst, src, n * sizeof(PALETTEENTRY))] *)
Definition CopyMemory {A} (dst src : list A) (n : Z) : option (list A) :=
  if decide (0 <= n <= Z.of_nat (length dst) /\ n <= Z.of_nat (length src))
  then Some (take (Z.to_nat n) src ++ drop (Z.to_nat n) dst) else None.

(** ** The graphics subsystem *)

(** Calls that change or hand out a resource are recorded, newest first. *)
Inductive Event : Type :=
  | EvGetDC (r : HDC)
  | EvReleaseDC (hdc : HDC)
  | EvGlobalAlloc (size : Z) (ok : bool)
  | EvGlobalFree
  | EvCreatePalette (lp : LOGPALETTE) (r : HPALETTE)
  | EvSetPaletteEntries (h : HPALETTE) (n : Z)
  | EvSelectPalette (hdc : HDC) (h r : HPALETTE)
  | EvRealizePalette (hdc : HDC)
  | EvDeleteObject (h : HPALETTE).

(** What the device and the system answer.  [syspal] is the system
    (hardware) palette of a device; [RealizePalette] alone changes it, and
    [realize] is what the palette manager makes of it, given the system
    palette as it is and the entries of the logical palette being realized
    ([None] for a palette the model does not hold, as the stock palette).
    The three booleans say whether a screen device context, global memory
    and a new palette object can be obtained; [uninit] is the indeterminate
    content of an automatic array. *)
Record Env : Type := mkEnv
  { device_caps : HDC -> Z -> Z;
    syspal_use : HDC -> Z;
    syspal : HDC -> list PALETTEENTRY;
    realize : list PALETTEENTRY -> option (list PALETTEENTRY) -> list PALETTEENTRY;
    dc_available : bool;
    heap_available : bool;
    gdi_available : bool;
    uninit : nat -> PALETTEENTRY }.

Record World : Type := mkWorld
  { env : Env;
    palettes : gmap positive (list PALETTEENTRY);
    dc_palette : positive;
    dc_open : nat;
    heap_live : nat;
    gdi_log : list Event }.

(** The device with [s] for the system palette of [hdc]. *)
Definition set_syspal (hdc : HDC) (s : list PALETTEENTRY) (e : Env) : Env :=
  mkEnv (device_caps e) (syspal_use e)
        (fun d => if decide (d = hdc) then s else syspal e d)
        (realize e) (dc_available e) (heap_available e) (gdi_available e) (uninit e).

Definition with_env (e : Env) (w : World) : World :=
  mkWorld e (palettes w) (dc_palette w) (dc_open w) (heap_live w) (gdi_log w).
Definition with_palettes (m : gmap positive (list PALETTEENTRY)) (w : World) : World :=
  mkWorld (env w) m (dc_palette w) (dc_open w) (heap_live w) (gdi_log w).
Definition with_dc_palette (p : positive) (w : World) : World :=
  mkWorld (env w) (palettes w) p (dc_open w) (heap_live w) (gdi_log w).
Definition with_dc_open (n : nat) (w : World) : World :=
  mkWorld (env w) (palettes w) (dc_palette w) n (heap_live w) (gdi_log w).
Definition with_heap_live (n : nat) (w : World) : World :=
  mkWorld (env w) (palettes w) (dc_palette w) (dc_open w) n (gdi_log w).
Definition record (e : Event) (w : World) : World :=
  mkWorld (env w) (palettes w) (dc_palette w) (dc_open w) (heap_live w)
          (e :: gdi_log w).

(** State and undefined behaviour. *)
Definition GDI (A : Type) : Type := World -> option (A * World).

#[global] Instance GDI_ret : MRet GDI := fun A a w => Some (a, w).
#[global] Instance GDI_bind : MBind GDI := fun A B k m w =>
  match m w with
  | Some (a, w') => k a w'
  | None => None
  end.

Definition lift {A} (o : option A) : GDI A := fun w =>
  match o with
  | Some a => Some (a, w)
  | None => None
  end.

(** The one device context the file ever asks for, [GetDC(NULL)]. *)
Definition SCREEN_DC : HDC := 1%N.

Definition palette_of (w : World) (h : HPALETTE) : option (list PALETTEENTRY) :=
  match h with
  | N0 => None
  | Npos p => palettes w !! p
  end.

Definition GetDC_NULL : GDI HDC := fun w =>
  if dc_available (env w)
  then Some (SCREEN_DC, record (EvGetDC SCREEN_DC) (with_dc_open (S (dc_open w)) w))
  else Some (NULL, record (EvGetDC NULL) w).

Definition ReleaseDC (hdc : HDC) : GDI unit := fun w =>
  if decide (hdc = SCREEN_DC)
  then Some (tt, record (EvReleaseDC hdc) (with_dc_open (Nat.pred (dc_open w)) w))
  else Some (tt, record (EvReleaseDC hdc) w).

Definition GetDeviceCaps (hdc : HDC) (index : Z) : GDI Z := fun w =>
  Some (device_caps (env w) hdc index, w).

Definition GetSystemPaletteUse (hdc : HDC) : GDI Z := fun w =>
  Some (syspal_use (env w) hdc, w).

(** Entries [start .. start + n) of a table, as far as it has them, laid
    over the front of [buf]; the number of entries written comes back. *)
Definition read_entries {A} (src : list A) (start n : Z) (buf : list A)
  : option (Z * list A) :=
  let got := take (Z.to_nat n) (drop (Z.to_nat start) src) in
  if decide (length got <= length buf)%nat
  then Some (Z.of_nat (length got), got ++ drop (length got) buf)
  else None.

Definition GetSystemPaletteEntries (hdc : HDC) (start n : Z)
    (buf : list PALETTEENTRY) : GDI (Z * list PALETTEENTRY) := fun w =>
  match read_entries (syspal (env w) hdc) start n buf with
  | Some r => Some (r, w)
  | None => None
  end.

Definition GetPaletteEntries (h : HPALETTE) (start n : Z)
    (buf : list PALETTEENTRY) : GDI (Z * list PALETTEENTRY) := fun w =>
  match palette_of w h with
  | Some ents =>
      match read_entries ents start n buf with
      | Some r => Some (r, w)
      | None => None
      end
  | None => Some ((0, buf), w)
  end.

(** [GetObject(hPal, sizeof(WORD), &dst)]: the entry count of a palette,
    stored into a [WORD]; [dst] is left as it was when the handle is not a
    palette ([None] is an indeterminate value). *)
Definition GetObject_WORD (h : HPALETTE) (dst : option Z) : GDI (Z * option Z) := fun w =>
  match palette_of w h with
  | Some ents => Some ((2, Some (to_WORD (Z.of_nat (length ents)))), w)
  | None => Some ((0, dst), w)
  end.

(** Reading a variable; undefined while it is indeterminate. *)
Definition rvalue {A} (v : option A) : GDI A := lift v.

(** [size_t] and [UINT] of the 32-bit target. *)
Definition SIZE_T_MOD : Z := 4294967296.
Definition to_UINT (z : Z) : Z := z mod SIZE_T_MOD.

(** [sizeof(LOGPALETTE) + sizeof(PALETTEENTRY) * n], computed in [size_t]. *)
Definition alloc_size (n : Z) : Z :=
  (sizeof_LOGPALETTE + sizeof_PALETTEENTRY * n) mod SIZE_T_MOD.

(** [GlobalAlloc(GPTR, size)] for a [LOGPALETTE]: a zero-filled block whose
    entry array holds as many entries as fit behind the two header words. *)
Definition GlobalAlloc_GPTR (size : Z) : GDI (option LOGPALETTE) := fun w =>
  if heap_available (env w)
  then Some (Some (mkLOGPALETTE 0 0
                     (replicate (Z.to_nat ((size - 4) / sizeof_PALETTEENTRY)) zero_entry)),
             record (EvGlobalAlloc size true) (with_heap_live (S (heap_live w)) w))
  else Some (None, record (EvGlobalAlloc size false) w).

Definition GlobalFree : GDI unit := fun w =>
  Some (tt, record EvGlobalFree (with_heap_live (Nat.pred (heap_live w)) w)).

(** A new handle differs from [NULL], from every palette there is and from
    the palette selected into the screen device context. *)
Definition new_handle (w : World) : positive :=
  fresh ({[ dc_palette w ]} ∪ dom (palettes w)).

(** [CreatePalette] copies [palNumEntries] entries out of the descriptor. *)
Definition CreatePalette (lp : LOGPALETTE) : GDI HPALETTE := fun w =>
  if gdi_available (env w)
  then
    if decide (palNumEntries lp <= Z.of_nat (length (palPalEntry lp)))
    then
      let p := new_handle w in
      let ents := take (Z.to_nat (palNumEntries lp)) (palPalEntry lp) in
      Some (Npos p, record (EvCreatePalette lp (Npos p))
                           (with_palettes (<[p := ents]> (palettes w)) w))
    else None
  else Some (NULL, record (EvCreatePalette lp NULL) w).

(** [SetPaletteEntries(h, 0, n, src)]: the first [n] entries of the palette,
    as far as it has them, are replaced. *)
Definition SetPaletteEntries_0 (h : HPALETTE) (n : Z) (src : list PALETTEENTRY)
  : GDI Z := fun w =>
  match h with
  | N0 => Some (0, w)
  | Npos p =>
      match palettes w !! p with
      | None => Some (0, w)
      | Some ents =>
          let k := Nat.min (Z.to_nat n) (length ents) in
          if decide (k <= length src)%nat
          then Some (Z.of_nat k,
                     record (EvSetPaletteEntries h n)
                            (with_palettes (<[p := take k src ++ drop k ents]> (palettes w)) w))
          else None
      end
  end.

(** [SelectPalette] answers the palette selected before, or [NULL] when the
    context or the palette is no handle. *)
Definition SelectPalette (hdc : HDC) (h : HPALETTE) (bForceBackground : bool)
  : GDI HPALETTE := fun w =>
  match h with
  | Npos p =>
      if decide (hdc = SCREEN_DC)
      then Some (Npos (dc_palette w),
                 record (EvSelectPalette hdc h (Npos (dc_palette w))) (with_dc_palette p w))
      else Some (NULL, record (EvSelectPalette hdc h NULL) w)
  | N0 => Some (NULL, record (EvSelectPalette hdc h NULL) w)
  end.

(** [RealizePalette] maps the palette selected into the context onto the
    system palette of the device: the palette manager's answer [realize]
    replaces the system palette.  Without a context nothing is mapped.  The
    number of entries mapped, which the file never looks at, is dropped. *)
Definition RealizePalette (hdc : HDC) : GDI unit := fun w =>
  if decide (hdc = SCREEN_DC)
  then
    let s := realize (env w) (syspal (env w) hdc) (palettes w !! dc_palette w) in
    Some (tt, record (EvRealizePalette hdc) (with_env (set_syspal hdc s (env w)) w))
  else Some (tt, record (EvRealizePalette hdc) w).

Definition DeleteObject (h : HPALETTE) : GDI bool := fun w =>
  match h with
  | Npos p =>
      match palettes w !! p with
      | Some _ => Some (true, record (EvDeleteObject h) (with_palettes (delete p (palettes w)) w))
      | None => Some (false, record (EvDeleteObject h) w)
      end
  | N0 => Some (false, record (EvDeleteObject h) w)
  end.

(** An automatic [PALETTEENTRY x[MAXPALETTE]] without initialiser. *)
Definition indeterminate_array (w : World) : list PALETTEENTRY :=
  uninit (env w) <$> seq 0 (Z.to_nat MAXPALETTE).

Definition auto_array : GDI (list PALETTEENTRY) := fun w =>
  Some (indeterminate_array w, w).

(** ** PALETTE.CPP *)

Definition PalEntriesOnDevice (hDC : HDC) : GDI Z :=
  nColors ← GetDeviceCaps hDC SIZEPALETTE;
  if decide (nColors = 0)
  then GetDeviceCaps hDC NUMCOLORS
  else mret nColors.

(** Body of the loop of [CreatePaletteFromRGBQUAD]. *)
Definition from_RGBQUAD_body (rgbqPalette : list RGBQUAD) (i : Z)
    (a : list PALETTEENTRY) : option (list PALETTEENTRY) :=
  q ← arr_get rgbqPalette i;
  arr_upd (fun e => set_peFlags 0
                      (set_peBlue (rgbBlue q)
                         (set_peGreen (rgbGreen q)
                            (set_peRed (rgbRed q) e)))) i a.

Definition CreatePaletteFromRGBQUAD (rgbqPalette : list RGBQUAD) (wEntries : Z)
  : GDI HPALETTE :=
  pe ← auto_array;
  lplgPal ← GlobalAlloc_GPTR (alloc_size wEntries);
  match lplgPal with
  | None => mret NULL
  | Some blk =>
      ents ← lift (for_loop 0 wEntries (from_RGBQUAD_body rgbqPalette) (palPalEntry blk));
      _ ← lift (CopyMemory pe ents wEntries);
      hPal ← CreatePalette (mkLOGPALETTE PALVERSION (to_WORD wEntries) ents);
      GlobalFree;;
      mret hPal
  end.

(** The cast the other way: a [PALETTEENTRY] lvalue over an [RGBQUAD]. *)
Definition as_PALETTEENTRY (q : RGBQUAD) : PALETTEENTRY :=
  mkPALETTEENTRY (rgbBlue q) (rgbGreen q) (rgbRed q) (rgbReserved q).

(** The four assignments of the loop of [CreateRGBQUADFromPalette], on the
    one element they all address. *)
Definition to_RGBQUAD_assignments (q : RGBQUAD) : RGBQUAD :=
  let q1 := set_rgbReserved (rgbRed q) q in
  let q2 := set_rgbRed (rgbBlue q1) q1 in
  let q3 := set_rgbBlue (rgbReserved q2) q2 in
  set_rgbReserved 0 q3.

Definition CreateRGBQUADFromPalette (rgbqPalette : list RGBQUAD) (hPal : HPALETTE)
  : GDI (Z * list RGBQUAD) :=
  '(_, wEntries) ← GetObject_WORD hPal None;
  wEntries ← rvalue wEntries;
  '(_, mem) ← GetPaletteEntries hPal 0 wEntries (as_PALETTEENTRY <$> rgbqPalette);
  rgbqPalette ← lift (for_loop 0 wEntries (arr_upd to_RGBQUAD_assignments)
                               (as_RGBQUAD <$> mem));
  mret (wEntries, rgbqPalette).

(** The [static] handle of the source is written once per call and read
    only by the [return] that follows; it is the local [hPal] here. *)
Definition GetSystemPalette : GDI HPALETTE :=
  hDC ← GetDC_NULL;
  if decide (hDC = NULL) then mret NULL
  else
    caps ← GetDeviceCaps hDC RASTERCAPS;
    if decide (Z.land caps RC_PALETTE = 0)
    then ReleaseDC hDC;; mret NULL
    else
      nColors ← PalEntriesOnDevice hDC;
      hLogPal ← GlobalAlloc_GPTR (alloc_size nColors);
      match hLogPal with
      | None => mret NULL
      | Some blk =>
          '(_, ents) ← GetSystemPaletteEntries hDC 0 (to_UINT nColors) (palPalEntry blk);
          hPal ← CreatePalette (mkLOGPALETTE PALVERSION (to_WORD nColors) ents);
          GlobalFree;;
          ReleaseDC hDC;;
          mret hPal
      end.

(** [x += d] on a [BYTE]; the value of the expression is the new [x]. *)
Definition BYTE_add (x d : Z) : Z := to_BYTE (x + d).

(** Loop state of [CreateSpectrumPalette]: the entry array and the three
    [BYTE] counters. *)
Definition spectrum_state : Type := list PALETTEENTRY * (Z * Z * Z).

Definition spectrum_counters (c : Z * Z * Z) : Z * Z * Z :=
  let '(red, green, blue) := c in
  let red := BYTE_add red 32 in
  if decide (red = 0)
  then
    let green := BYTE_add green 32 in
    if decide (green = 0)
    then (red, green, BYTE_add blue 64)
    else (red, green, blue)
  else (red, green, blue).

Definition spectrum_body (i : Z) (s : spectrum_state) : option spectrum_state :=
  let '(a, (red, green, blue)) := s in
  a ← arr_upd (fun e => set_peFlags 0
                          (set_peBlue blue
                             (set_peGreen green
                                (set_peRed red e)))) i a;
  Some (a, spectrum_counters (red, green, blue)).

Definition CreateSpectrumPalette : GDI HPALETTE :=
  lplgPal ← GlobalAlloc_GPTR (alloc_size MAXPALETTE);
  match lplgPal with
  | None => mret NULL
  | Some blk =>
      s ← lift (for_loop 0 MAXPALETTE spectrum_body (palPalEntry blk, (0, 0, 0)));
      hPal ← CreatePalette (mkLOGPALETTE PALVERSION (to_WORD MAXPALETTE) s.1);
      GlobalFree;;
      mret hPal
  end.

Definition CopyPalette (hPal : HPALETTE) : GDI HPALETTE :=
  '(_, iNumEntries) ← GetObject_WORD hPal None;
  iNumEntries ← rvalue iNumEntries;
  lplgPal ← GlobalAlloc_GPTR (alloc_size iNumEntries);
  match lplgPal with
  | None => mret NULL
  | Some blk =>
      '(got, ents) ← GetPaletteEntries hPal 0 iNumEntries (palPalEntry blk);
      hPalNew ← CreatePalette (mkLOGPALETTE PALVERSION (to_WORD got) ents);
      GlobalFree;;
      mret hPalNew
  end.

Definition CopyPaletteEx (hPal : HPALETTE) (bFlag : Z) : GDI HPALETTE :=
  pe ← auto_array;
  if decide (hPal = NULL) then mret NULL
  else
    '(r, wNumColors) ← GetObject_WORD hPal None;
    if decide (r = 0) then mret NULL
    else
      wNumColors ← rvalue wNumColors;
      hNewPal ← CopyPalette hPal;
      '(_, pe) ← GetPaletteEntries hNewPal 0 wNumColors pe;
      pe ← lift (for_loop 0 wNumColors (arr_upd (set_peFlags bFlag)) pe);
      SetPaletteEntries_0 hNewPal wNumColors pe;;
      mret hNewPal.

(** The local [Palette] of [CreateIdentityPalette] and [ClearSystemPalette]:
    the initialiser names the two header words, the entries start as zero. *)
Definition Palette_init : LOGPALETTE :=
  mkLOGPALETTE 768 MAXPALETTE (replicate (Z.to_nat MAXPALETTE) zero_entry).

(** Copying one caller colour, marked [PC_NOCOLLAPSE]. *)
Definition identity_copy_body (lprgbq : list RGBQUAD) (i : Z)
    (a : list PALETTEENTRY) : option (list PALETTEENTRY) :=
  q ← arr_get lprgbq i;
  arr_upd (fun e => set_peFlags PC_NOCOLLAPSE
                      (set_peBlue (rgbBlue q)
                         (set_peGreen (rgbGreen q)
                            (set_peRed (rgbRed q) e)))) i a.

(** The [SYSPAL_NOSTATIC] branch of [CreateIdentityPalette]. *)
Definition identity_nostatic (lprgbq : list RGBQUAD) (nColors : Z)
    (a : list PALETTEENTRY) : option (list PALETTEENTRY) :=
  a ← for_loop 0 nColors (identity_copy_body lprgbq) a;
  let i := loop_exit 0 nColors in
  a ← for_loop i MAXPALETTE (arr_upd (set_peFlags PC_NOCOLLAPSE)) a;
  a ← arr_upd (fun e => set_peFlags 0 (set_peBlue 255 (set_peGreen 255 (set_peRed 255 e))))
              255 a;
  arr_upd (fun e => set_peFlags 0 (set_peBlue 0 (set_peGreen 0 (set_peRed 0 e)))) 0 a.

(** The other branch, after the two device queries: [N] is the answer of
    [GetDeviceCaps(hDC, NUMCOLORS)], [a] the array as
    [GetSystemPaletteEntries] left it. *)
Definition identity_static (lprgbq : list RGBQUAD) (nColors : Z) (N : Z)
    (a : list PALETTEENTRY) : option (list PALETTEENTRY) :=
  let nStaticColors := int_div N 2 in
  a ← for_loop 0 nStaticColors (arr_upd (set_peFlags 0)) a;
  let i := loop_exit 0 nStaticColors in
  nUsableColors ← int_sub nColors nStaticColors;
  a ← for_loop i nUsableColors (identity_copy_body lprgbq) a;
  let i := loop_exit i nUsableColors in
  a ← for_loop i (MAXPALETTE - nStaticColors) (arr_upd (set_peFlags PC_NOCOLLAPSE)) a;
  for_loop (MAXPALETTE - nStaticColors) MAXPALETTE (arr_upd (set_peFlags 0)) a.

Definition CreateIdentityPalette (lprgbq : list RGBQUAD) (nColors : Z)
  : GDI HPALETTE :=
  hDC ← GetDC_NULL;
  use ← GetSystemPaletteUse hDC;
  aEntries ←
    (if decide (use = SYSPAL_NOSTATIC)
     then lift (identity_nostatic lprgbq nColors (palPalEntry Palette_init))
     else
       nStaticColors ← GetDeviceCaps hDC NUMCOLORS;
       '(_, a) ← GetSystemPaletteEntries hDC 0 MAXPALETTE (palPalEntry Palette_init);
       lift (identity_static lprgbq nColors nStaticColors a));
  ReleaseDC hDC;;
  CreatePalette (mkLOGPALETTE (palVersion Palette_init) (palNumEntries Palette_init) aEntries).

Definition ClearSystemPalette : GDI unit :=
  aEntries ← lift (for_loop 0 MAXPALETTE
                     (arr_upd (fun e => set_peFlags PC_NOCOLLAPSE
                                          (set_peBlue 0 (set_peGreen 0 (set_peRed 0 e)))))
                     (palPalEntry Palette_init));
  ScreenDC ← GetDC_NULL;
  ScreenPalette ← CreatePalette
    (mkLOGPALETTE (palVersion Palette_init) (palNumEntries Palette_init) aEntries);
  (if decide (ScreenPalette ≠ NULL)
   then
     ScreenPalette ← SelectPalette ScreenDC ScreenPalette false;
     RealizePalette ScreenDC;;
     ScreenPalette ← SelectPalette ScreenDC ScreenPalette false;
     DeleteObject ScreenPalette;;
     mret tt
   else mret tt);;
  ReleaseDC ScreenDC.

(** ** Vocabulary of the statements *)

(** A table colour in [PALETTEENTRY] order with flag 0, and a palette entry
    read back in [RGBQUAD] order with reserved byte 0. *)
Definition entry_of_quad (q : RGBQUAD) : PALETTEENTRY :=
  mkPALETTEENTRY (rgbRed q) (rgbGreen q) (rgbBlue q) 0.

Definition quad_of_entry (e : PALETTEENTRY) : RGBQUAD :=
  {| rgbBlue := peBlue e; rgbGreen := peGreen e; rgbRed := peRed e; rgbReserved := 0 |}.

(** The direct transformation the specification names in place of the four
    assignments: red and blue exchanged, reserved cleared. *)
Definition swap_red_blue_clear_reserved (q : RGBQUAD) : RGBQUAD :=
  {| rgbBlue := rgbRed q; rgbGreen := rgbGreen q; rgbRed := rgbBlue q; rgbReserved := 0 |}.

Definition black_static : PALETTEENTRY := mkPALETTEENTRY 0 0 0 0.
Definition white_static : PALETTEENTRY := mkPALETTEENTRY 255 255 255 0.
Definition black_nocollapse : PALETTEENTRY := mkPALETTEENTRY 0 0 0 PC_NOCOLLAPSE.

(** The caller's colour [i] as a [PC_NOCOLLAPSE] entry. *)
Definition caller_entry (lprgbq : list RGBQUAD) (i : Z) (e : PALETTEENTRY)
  : PALETTEENTRY :=
  match arr_get lprgbq i with
  | Some q => mkPALETTEENTRY (rgbRed q) (rgbGreen q) (rgbBlue q) PC_NOCOLLAPSE
  | None => e
  end.

(** What the four loops of the static branch do to slot [k], for a low
    reserved half of [nS] entries. *)
Definition static_slot (lprgbq : list RGBQUAD) (nColors nS : Z) (k : Z)
    (e : PALETTEENTRY) : PALETTEENTRY :=
  let e := if decide (0 <= k < nS) then set_peFlags 0 e else e in
  let e := if decide (Z.max 0 nS <= k < nColors - nS)
           then caller_entry lprgbq k e else e in
  let e := if decide (Z.max (Z.max 0 nS) (nColors - nS) <= k < MAXPALETTE - nS)
           then set_peFlags PC_NOCOLLAPSE e else e in
  if decide (MAXPALETTE - nS <= k < MAXPALETTE) then set_peFlags 0 e else e.

(** The handle [GetDC(NULL)] answers in a world. *)
Definition GetDC_result (w : World) : HDC :=
  if dc_available (env w) then SCREEN_DC else NULL.

(** The local array of [CreateIdentityPalette] right after
    [GetSystemPaletteEntries(hDC, 0, MAXPALETTE, Palette.aEntries)]. *)
Definition syspal_snapshot (e : Env) (hdc : HDC) : list PALETTEENTRY :=
  let got := take (Z.to_nat MAXPALETTE) (syspal e hdc) in
  got ++ drop (length got) (palPalEntry Palette_init).

(** The entry array [CreateIdentityPalette] hands to [CreatePalette]. *)
Definition identity_descriptor (lprgbq : list RGBQUAD) (nColors : Z) (w : World)
  : option (list PALETTEENTRY) :=
  let hDC := GetDC_result w in
  if decide (syspal_use (env w) hDC = SYSPAL_NOSTATIC)
  then identity_nostatic lprgbq nColors (palPalEntry Palette_init)
  else identity_static lprgbq nColors (device_caps (env w) hDC NUMCOLORS)
                       (syspal_snapshot (env w) hDC).

(** The counters of [CreateSpectrumPalette] before iteration [i], in closed
    form, and the entry that iteration stores. *)
Definition spectrum_rgb (i : Z) : Z * Z * Z :=
  (32 * (i mod 8), 32 * ((i / 8) mod 8), 64 * ((i / 64) mod 4)).

Definition spectrum_entry (i : Z) : PALETTEENTRY :=
  let '(red, green, blue) := spectrum_rgb i in mkPALETTEENTRY red green blue 0.

(** The counter as the specification words it: a component steps by 32 and
    goes back to 0 on reaching 256; green steps when red has wrapped, blue
    steps by 64 when green has wrapped too. *)
Definition wrap_step_32 (x : Z) : Z := if decide (x + 32 = 256) then 0 else x + 32.

Definition nested_counter (c : Z * Z * Z) : Z * Z * Z :=
  let '(red, green, blue) := c in
  let red' := wrap_step_32 red in
  if decide (red' = 0)
  then
    let green' := wrap_step_32 green in
    if decide (green' = 0) then (red', green', blue + 64) else (red', green', blue)
  else (red', green, blue).

(** The 256 entries in closed form, and what is checked of slot [i]: flag
    0, a colour that is iterate [i] of the counter (as the specification
    words it, and as the code steps it), a red that is a multiple of 32
    between 0 and 224. *)
Definition spectrum_table : list PALETTEENTRY :=
  (fun k => spectrum_entry (Z.of_nat k)) <$> seq 0 (Z.to_nat MAXPALETTE).

Definition spectrum_slot_ok (p : nat * PALETTEENTRY) : Prop :=
  peFlags p.2 = 0 /\
  pe_rgb p.2 = Nat.iter p.1 nested_counter (0, 0, 0) /\
  pe_rgb p.2 = Nat.iter p.1 spectrum_counters (0, 0, 0) /\
  (peRed p.2) `mod` 32 = 0 /\ 0 <= peRed p.2 <= 224.

#[local] Instance spectrum_slot_ok_dec p : Decision (spectrum_slot_ok p).
Proof. unfold spectrum_slot_ok. apply _. Defined.

(** ** Sample devices *)

(** A palette device; the colour of system slot [i] is the grey [i], with a
    flag byte of 7 so that flag changes show. *)
Definition sample_syspal : list PALETTEENTRY :=
  (fun i => let v := Z.of_nat i in mkPALETTEENTRY v v v 7) <$> seq 0 256.

(** Its palette manager keeps ten static entries at either end of the
    system palette and lays the logical palette, entry after entry, over
    the slots between them. *)
Definition sample_realize (cur : list PALETTEENTRY) (lp : option (list PALETTEENTRY))
  : list PALETTEENTRY :=
  match lp with
  | Some ents =>
      imap (fun i e => if decide (10 <= i < length cur - 10)%nat
                       then default e (ents !! (i - 10)%nat) else e) cur
  | None => cur
  end.

Definition sample_env (sizepalette numcolors rastercaps use : Z)
    (dc heap gdi : bool) : Env :=
  {| device_caps := fun hdc index =>
       if decide (hdc = SCREEN_DC) then
         if decide (index = NUMCOLORS) then numcolors
         else if decide (index = RASTERCAPS) then rastercaps
         else if decide (index = SIZEPALETTE) then sizepalette
         else 0
       else 0;
     syspal_use := fun hdc => if decide (hdc = SCREEN_DC) then use else SYSPAL_ERROR;
     syspal := fun hdc => if decide (hdc = SCREEN_DC) then sample_syspal else [];
     realize := sample_realize;
     dc_available := dc;
     heap_available := heap;
     gdi_available := gdi;
     uninit := fun _ => mkPALETTEENTRY 205 205 205 205 |}.

(** One palette of two entries (handle 5) exists; palette 1 is selected
    into the screen context. *)
Definition sample_world (e : Env) : World :=
  {| env := e;
     palettes := {[ 5%positive := [mkPALETTEENTRY 10 20 30 1; mkPALETTEENTRY 40 50 60 2] ]};
     dc_palette := 1%positive;
     dc_open := 0;
     heap_live := 0;
     gdi_log := [] |}.

Definition static_world : World :=
  sample_world (sample_env 256 20 RC_PALETTE SYSPAL_STATIC true true true).
Definition nostatic_world : World :=
  sample_world (sample_env 256 20 RC_PALETTE SYSPAL_NOSTATIC true true true).
Definition no_dc_world : World :=
  sample_world (sample_env 256 20 RC_PALETTE SYSPAL_STATIC false true true).
Definition no_heap_world : World :=
  sample_world (sample_env 256 20 RC_PALETTE SYSPAL_STATIC true false true).
Definition non_palette_world : World :=
  sample_world (sample_env 0 16 0 SYSPAL_STATIC true true true).

Definition sample_table : list RGBQUAD :=
  [ mkRGBQUAD 1 2 3 4; mkRGBQUAD 11 22 33 44; mkRGBQUAD 111 122 133 144 ].

(** A caller's table of 100 colours, all (red 3, green 2, blue 1). *)
Definition long_table : list RGBQUAD := replicate 100 (mkRGBQUAD 1 2 3 4).

(** ** Vocabulary of the further properties *)

(** A table and a palette of 300 entries, more than [MAXPALETTE]. *)
Definition oversize_table : list RGBQUAD := replicate 300 (mkRGBQUAD 1 2 3 4).

Definition oversize_world : World :=
  with_palettes
    (<[9%positive := replicate 300 (mkPALETTEENTRY 1 2 3 0)]> (palettes static_world))
    static_world.

(** What a routine that only constructs leaves alone: the environment, the
    palette selected into the screen context, and every palette there was. *)
Definition frame (w w' : World) : Prop :=
  env w' = env w /\ dc_palette w' = dc_palette w /\ palettes w ⊆ palettes w'.

Definition keeps_frame {A} (m : GDI A) : Prop :=
  forall w a w', m w = Some (a, w') -> frame w w'.

(** * Properties *)

Ltac world_simpl :=
  cbn [palette_of env palettes dc_palette dc_open heap_live gdi_log record
       with_env with_palettes with_dc_palette with_dc_open with_heap_live].

(** ** Running the monad *)

Lemma bind_run {A B} (m : GDI A) (k : A → GDI B) w :
  (m ≫= k) w = match m w with Some (a, w') => k a w' | None => None end.
Proof. reflexivity. Qed.

Lemma ret_run {A} (a : A) w : (mret a : GDI A) w = Some (a, w).
Proof. reflexivity. Qed.

Lemma lift_run {A} (o : option A) w :
  lift o w = match o with Some a => Some (a, w) | None => None end.
Proof. reflexivity. Qed.

(** ** Arrays and loops *)

Section loops.
Context {A : Type}.
Implicit Types (a b : list A) (f : Z → A → A).

Lemma arr_upd_Some (g : A → A) i a :
  0 ≤ i < Z.of_nat (length a) →
  arr_upd g i a = Some (alter g (Z.to_nat i) a).
Proof. intros Hi. unfold arr_upd. by rewrite decide_True. Qed.

Lemma arr_get_Some a (k : nat) x :
  a !! k = Some x → arr_get a (Z.of_nat k) = Some x.
Proof.
  intros Hk. unfold arr_get. rewrite decide_True by lia.
  by rewrite Nat2Z.id.
Qed.

(** A loop whose body rewrites the element it is at rewrites exactly the
    elements of its range. *)
Lemma for_range_upd (body : Z → list A → option (list A)) f n : ∀ i a,
  0 ≤ i →
  (n ≠ 0%nat → i + Z.of_nat n ≤ Z.of_nat (length a)) →
  (∀ j b, i ≤ j < i + Z.of_nat n → body j b = arr_upd (f j) j b) →
  ∃ a', for_range n i body a = Some a' ∧ length a' = length a ∧
    ∀ k : nat, a' !! k =
      if decide (i ≤ Z.of_nat k < i + Z.of_nat n)
      then f (Z.of_nat k) <$> a !! k else a !! k.
Proof.
  induction n as [|n IH]; intros i a Hi Hlen Hbody.
  - exists a. split; [done|split; [done|]]. intros k.
    rewrite decide_False by lia. done.
  - specialize (Hlen ltac:(done)).
    cbn [for_range]. rewrite Hbody by lia. rewrite arr_upd_Some by lia.
    destruct (IH (i + 1) (alter (f i) (Z.to_nat i) a)) as (a' & Hrun & Hl & Hk).
    + lia.
    + rewrite length_alter. lia.
    + intros j b Hj. apply Hbody. lia.
    + exists a'. rewrite Hrun, Hl, length_alter. split; [done|split; [done|]].
      intros k. rewrite Hk. clear Hk.
      destruct (decide (Z.to_nat i = k)) as [<-|Hne].
      * rewrite decide_False by lia. rewrite decide_True by lia.
        rewrite list_lookup_alter_eq. by rewrite Z2Nat.id by lia.
      * rewrite list_lookup_alter_ne by done.
        repeat case_decide; try done; lia.
Qed.

Lemma for_loop_upd (body : Z → list A → option (list A)) f lo hi a :
  0 ≤ lo → (lo < hi → hi ≤ Z.of_nat (length a)) →
  (∀ j b, lo ≤ j < hi → body j b = arr_upd (f j) j b) →
  ∃ a', for_loop lo hi body a = Some a' ∧ length a' = length a ∧
    ∀ k : nat, a' !! k =
      if decide (lo ≤ Z.of_nat k < hi) then f (Z.of_nat k) <$> a !! k else a !! k.
Proof.
  intros Hlo Hhi Hbody. unfold for_loop.
  destruct (for_range_upd body f (Z.to_nat (hi - lo)) lo a) as (a' & Hrun & Hl & Hk).
  - done.
  - intros Hn. lia.
  - intros j b Hj. apply Hbody. lia.
  - exists a'. split; [done|split; [done|]]. intros k. rewrite Hk.
    repeat case_decide; try done; lia.
Qed.

Lemma read_entries_all (src buf : list A) n :
  n = Z.of_nat (length src) → (length src ≤ length buf)%nat →
  read_entries src 0 n buf = Some (n, src ++ drop (length src) buf).
Proof.
  intros -> Hlen. unfold read_entries. cbn [Z.to_nat drop].
  rewrite Nat2Z.id, firstn_all. by rewrite decide_True.
Qed.
End loops.

Lemma to_WORD_small n : 0 ≤ n < WORD_MOD → to_WORD n = n.
Proof. intros. by apply Z.mod_small. Qed.

Lemma int_sub_Some a b :
  INT_MIN ≤ a - b ≤ INT_MAX → int_sub a b = Some (a - b).
Proof. intros. unfold int_sub. by rewrite decide_True. Qed.

Lemma alloc_size_small n :
  0 ≤ n ≤ 65535 →
  Z.to_nat ((alloc_size n - 4) / sizeof_PALETTEENTRY) = S (Z.to_nat n).
Proof.
  intros Hn. unfold alloc_size, sizeof_LOGPALETTE, sizeof_PALETTEENTRY, SIZE_T_MOD.
  rewrite Z.mod_small by lia.
  replace (8 + 4 * n - 4) with ((n + 1) * 4) by lia.
  rewrite Z.div_mul by lia. lia.
Qed.

Lemma set_flags_loop bFlag n (a : list PALETTEENTRY) :
  0 ≤ n ≤ Z.of_nat (length a) →
  for_loop 0 n (arr_upd (set_peFlags bFlag)) a =
    Some ((set_peFlags bFlag <$> take (Z.to_nat n) a) ++ drop (Z.to_nat n) a).
Proof.
  intros Hn.
  destruct (for_loop_upd (arr_upd (set_peFlags bFlag)) (λ _, set_peFlags bFlag) 0 n a)
    as (a' & Hrun & Hl & Hk); [lia|lia|done|].
  rewrite Hrun. f_equal. apply list_eq. intros k. rewrite Hk.
  destruct (decide (k < Z.to_nat n)%nat) as [Hlt|Hge].
  - rewrite decide_True by lia.
    rewrite lookup_app_l by (rewrite length_fmap, length_take; lia).
    by rewrite list_lookup_fmap, lookup_take_lt.
  - rewrite decide_False by lia.
    rewrite lookup_app_r by (rewrite length_fmap, length_take; lia).
    rewrite length_fmap, length_take, lookup_drop. f_equal. lia.
Qed.

(** ** The subsystem's calls *)

Lemma new_handle_fresh w : palettes w !! new_handle w = None.
Proof.
  apply not_elem_of_dom. unfold new_handle.
  pose proof (is_fresh ({[dc_palette w]} ∪ dom (palettes w))) as Hf.
  set_solver.
Qed.

Lemma new_handle_not_selected w : new_handle w ≠ dc_palette w.
Proof.
  unfold new_handle.
  pose proof (is_fresh ({[dc_palette w]} ∪ dom (palettes w))) as Hf.
  set_solver.
Qed.

Lemma length_indeterminate_array w :
  length (indeterminate_array w) = Z.to_nat MAXPALETTE.
Proof. unfold indeterminate_array. by rewrite length_fmap, length_seq. Qed.

Lemma length_Palette_init : length (palPalEntry Palette_init) = Z.to_nat MAXPALETTE.
Proof. unfold Palette_init. cbn [palPalEntry]. apply length_replicate. Qed.

Lemma length_syspal_snapshot e hdc :
  length (syspal_snapshot e hdc) = Z.to_nat MAXPALETTE.
Proof.
  unfold syspal_snapshot. cbv zeta.
  rewrite length_app, length_drop, length_Palette_init, length_take. lia.
Qed.

Lemma GetSystemPaletteEntries_snapshot hdc w :
  ∃ got, GetSystemPaletteEntries hdc 0 MAXPALETTE (palPalEntry Palette_init) w
         = Some ((got, syspal_snapshot (env w) hdc), w).
Proof.
  unfold GetSystemPaletteEntries, read_entries. cbn [Z.to_nat drop]. cbv zeta.
  rewrite decide_True by (rewrite length_take, length_Palette_init; lia).
  eexists. reflexivity.
Qed.

Lemma GetDC_NULL_run w :
  ∃ w1, GetDC_NULL w = Some (GetDC_result w, w1) ∧
        env w1 = env w ∧ palettes w1 = palettes w ∧ dc_palette w1 = dc_palette w ∧
        heap_live w1 = heap_live w ∧
        gdi_log w1 = EvGetDC (GetDC_result w) :: gdi_log w ∧
        dc_open w1 = (if dc_available (env w) then S (dc_open w) else dc_open w).
Proof.
  unfold GetDC_NULL, GetDC_result. destruct (dc_available (env w));
    eexists; (split; [reflexivity|]); repeat split.
Qed.

Lemma ReleaseDC_GetDC_result w w1 :
  dc_open w1 = (if dc_available (env w) then S (dc_open w) else dc_open w) →
  ∃ w2, ReleaseDC (GetDC_result w) w1 = Some (tt, w2) ∧
        env w2 = env w1 ∧ palettes w2 = palettes w1 ∧ dc_palette w2 = dc_palette w1 ∧
        heap_live w2 = heap_live w1 ∧
        gdi_log w2 = EvReleaseDC (GetDC_result w) :: gdi_log w1 ∧
        dc_open w2 = dc_open w.
Proof.
  intros Hopen. unfold ReleaseDC, GetDC_result in *.
  destruct (dc_available (env w)).
  - rewrite decide_True by done. eexists. split; [reflexivity|].
    repeat split. world_simpl. by rewrite Hopen.
  - rewrite decide_False by done. eexists. split; [reflexivity|].
    repeat split. done.
Qed.

Lemma CreatePalette_run lp w :
  palNumEntries lp ≤ Z.of_nat (length (palPalEntry lp)) →
  ∃ h w', CreatePalette lp w = Some (h, w') ∧
    env w' = env w ∧ dc_palette w' = dc_palette w ∧ dc_open w' = dc_open w ∧
    heap_live w' = heap_live w ∧
    gdi_log w' = EvCreatePalette lp h :: gdi_log w ∧
    ((h = NULL ∧ gdi_available (env w) = false ∧ palettes w' = palettes w) ∨
     (∃ p, h = Npos p ∧ gdi_available (env w) = true ∧ palettes w !! p = None ∧
           p ≠ dc_palette w ∧
           palettes w' =
             <[p := take (Z.to_nat (palNumEntries lp)) (palPalEntry lp)]> (palettes w))).
Proof.
  intros Hn. unfold CreatePalette. destruct (gdi_available (env w)).
  - rewrite decide_True by done. cbv zeta. eexists _, _. split; [reflexivity|].
    repeat split. right. exists (new_handle w).
    repeat split; [apply new_handle_fresh|apply new_handle_not_selected].
  - eexists _, _. split; [reflexivity|]. repeat split. left. done.
Qed.

(** ** The two layouts *)

Lemma RGBQUAD_bytes_cast e : RGBQUAD_bytes (as_RGBQUAD e) = PALETTEENTRY_bytes e.
Proof. reflexivity. Qed.

Lemma PALETTEENTRY_bytes_cast q :
  PALETTEENTRY_bytes (as_PALETTEENTRY q) = RGBQUAD_bytes q.
Proof. reflexivity. Qed.

Lemma as_RGBQUAD_as_PALETTEENTRY q : as_RGBQUAD (as_PALETTEENTRY q) = q.
Proof. by destruct q. Qed.

Lemma cast_buffer_id (buf : list RGBQUAD) :
  as_RGBQUAD <$> (as_PALETTEENTRY <$> buf) = buf.
Proof.
  induction buf as [|q buf IH]; [done|].
  cbn. by rewrite as_RGBQUAD_as_PALETTEENTRY, IH.
Qed.

Lemma to_RGBQUAD_assignments_cast e :
  to_RGBQUAD_assignments (as_RGBQUAD e) = quad_of_entry e.
Proof. reflexivity. Qed.

(** ** CreatePaletteFromRGBQUAD and CreateRGBQUADFromPalette *)

Lemma from_RGBQUAD_loop tbl n a :
  0 ≤ n → n ≤ Z.of_nat (length tbl) → n ≤ Z.of_nat (length a) →
  ∃ a', for_loop 0 n (from_RGBQUAD_body tbl) a = Some a' ∧ length a' = length a ∧
        take (Z.to_nat n) a' = entry_of_quad <$> take (Z.to_nat n) tbl.
Proof.
  intros Hn Ht Ha.
  destruct (for_loop_upd (from_RGBQUAD_body tbl)
              (λ j e, match arr_get tbl j with
                      | Some q => entry_of_quad q
                      | None => e
                      end) 0 n a) as (a' & Hrun & Hl & Hk); [lia|lia| |].
  - intros j b Hj. unfold from_RGBQUAD_body.
    destruct (lookup_lt_is_Some_2 tbl (Z.to_nat j)) as [q Hq]; [lia|].
    assert (arr_get tbl j = Some q) as ->.
    { rewrite <- (Z2Nat.id j) by lia. by apply arr_get_Some. }
    cbn. unfold arr_upd. case_decide; [|done]. f_equal.
  - exists a'. split; [done|split; [done|]].
    apply list_eq. intros k.
    destruct (decide (k < Z.to_nat n)%nat) as [Hlt|Hge].
    + rewrite lookup_take_lt by done. rewrite list_lookup_fmap.
      rewrite lookup_take_lt by done. rewrite Hk. rewrite decide_True by lia.
      destruct (lookup_lt_is_Some_2 tbl k) as [q Hq]; [lia|].
      destruct (lookup_lt_is_Some_2 a k) as [e He]; [lia|].
      rewrite (arr_get_Some _ _ _ Hq), Hq, He. done.
    + rewrite lookup_take_ge by lia. rewrite list_lookup_fmap.
      rewrite lookup_take_ge by lia. done.
Qed.

Lemma CreatePaletteFromRGBQUAD_run tbl n w :
  0 ≤ n ≤ MAXPALETTE → n ≤ Z.of_nat (length tbl) →
  ∃ h w', CreatePaletteFromRGBQUAD tbl n w = Some (h, w') ∧
    env w' = env w ∧
    (h ≠ NULL ↔ heap_available (env w) = true ∧ gdi_available (env w) = true) ∧
    (h ≠ NULL → palette_of w h = None ∧
                palette_of w' h = Some (entry_of_quad <$> take (Z.to_nat n) tbl)).
Proof.
  intros Hn Ht. unfold MAXPALETTE in Hn. unfold CreatePaletteFromRGBQUAD.
  rewrite bind_run. unfold auto_array. cbv beta iota.
  pose proof (length_indeterminate_array w) as Hpe.
  rewrite bind_run. unfold GlobalAlloc_GPTR.
  destruct (heap_available (env w)) eqn:Hheap.
  - rewrite alloc_size_small by lia. cbv beta iota.
    set (w1 := record _ _).
    destruct (from_RGBQUAD_loop tbl n (replicate (S (Z.to_nat n)) zero_entry))
      as (ents & Hloop & Hlen & Hents); [lia|lia|rewrite length_replicate; lia|].
    rewrite length_replicate in Hlen.
    cbn [palPalEntry]. rewrite bind_run, lift_run, Hloop.
    rewrite bind_run, lift_run. unfold CopyMemory.
    rewrite decide_True by (unfold MAXPALETTE in Hpe; lia).
    rewrite bind_run. unfold CreatePalette. cbn [palNumEntries palPalEntry].
    change (env w1) with (env w).
    rewrite to_WORD_small by (unfold WORD_MOD; lia).
    destruct (gdi_available (env w)) eqn:Hgdi.
    + rewrite decide_True by lia. cbv zeta. rewrite bind_run. cbn.
      eexists _, _. split; [done|]. split; [done|]. split; [done|].
      intros _. split.
      * apply (new_handle_fresh w1).
      * world_simpl. rewrite lookup_insert_eq. by rewrite Hents.
    + rewrite bind_run. cbn. eexists _, _. split; [done|]. split; [done|].
      split; [|done]. split; [done|]. intros [_ ?]; done.
  - cbv beta iota. eexists _, _. split; [done|]. split; [done|].
    split; [|done]. split; [done|]. intros [? _]; done.
Qed.

Lemma CreateRGBQUADFromPalette_run buf h w ents :
  palette_of w h = Some ents →
  Z.of_nat (length ents) < WORD_MOD →
  (length ents ≤ length buf)%nat →
  CreateRGBQUADFromPalette buf h w =
    Some ((Z.of_nat (length ents),
           (quad_of_entry <$> ents) ++ drop (length ents) buf), w).
Proof.
  intros Hpal Hw Hbuf. unfold CreateRGBQUADFromPalette.
  rewrite bind_run. unfold GetObject_WORD. rewrite Hpal.
  rewrite to_WORD_small by lia.
  cbv beta iota. rewrite bind_run. unfold rvalue. rewrite lift_run.
  rewrite bind_run. unfold GetPaletteEntries. rewrite Hpal.
  rewrite (read_entries_all ents) by (rewrite ?length_fmap; done).
  cbv beta iota. rewrite bind_run, lift_run.
  set (mem := as_RGBQUAD <$> _).
  destruct (for_loop_upd (arr_upd to_RGBQUAD_assignments)
              (λ _, to_RGBQUAD_assignments) 0 (Z.of_nat (length ents)) mem)
    as (out & Hrun & Hl & Hk); [lia| |done|].
  { subst mem. rewrite length_fmap, length_app, length_drop, !length_fmap. lia. }
  rewrite Hrun, ret_run. do 3 f_equal.
  apply list_eq. intros k. rewrite Hk. subst mem.
  rewrite fmap_app, <- fmap_drop, cast_buffer_id.
  destruct (decide (k < length ents)%nat) as [Hlt|Hge].
  - rewrite decide_True by lia.
    rewrite !lookup_app_l by (rewrite length_fmap; lia).
    rewrite !list_lookup_fmap. by destruct (ents !! k).
  - rewrite decide_False by lia.
    rewrite !lookup_app_r by (rewrite length_fmap; lia).
    by rewrite !length_fmap.
Qed.

(** C1.  For a count from 1 to 256 and a colour table of that length,
    [CreatePaletteFromRGBQUAD] is defined and answers a palette exactly when
    memory and a palette object can be had; reading that palette back with
    [CreateRGBQUADFromPalette] into a buffer with room for it answers the
    same count, and entry [i] of the buffer has the red, green and blue of
    entry [i] of the table and a reserved byte of 0, whatever the table's
    reserved byte was. *)
Theorem palette_table_roundtrip (w : World) (tbl buf : list RGBQUAD) (count : Z) :
  1 ≤ count ≤ 256 →
  Z.of_nat (length tbl) = count →
  count ≤ Z.of_nat (length buf) →
  ∃ h w1,
    CreatePaletteFromRGBQUAD tbl count w = Some (h, w1) ∧
    (h ≠ NULL ↔ heap_available (env w) = true ∧ gdi_available (env w) = true) ∧
    (h ≠ NULL →
     ∃ out,
       CreateRGBQUADFromPalette buf h w1 = Some ((count, out), w1) ∧
       ∀ (i : nat) (q : RGBQUAD), tbl !! i = Some q →
         ∃ q', out !! i = Some q' ∧
               quad_rgb q' = quad_rgb q ∧ rgbReserved q' = 0).
Proof.
  intros Hcount Htbl Hbuf.
  destruct (CreatePaletteFromRGBQUAD_run tbl count w) as (h & w1 & Hrun & _ & Hnn & Hpal);
    [unfold MAXPALETTE; lia|lia|].
  exists h, w1. split; [done|]. split; [done|].
  intros Hh. destruct (Hpal Hh) as [_ Hents].
  rewrite take_ge in Hents by lia.
  eexists. split.
  - rewrite (CreateRGBQUADFromPalette_run buf h w1 _ Hents);
      rewrite ?length_fmap; [|unfold WORD_MOD; lia|lia].
    by rewrite Htbl.
  - intros i q Hq. exists (quad_of_entry (entry_of_quad q)).
    split; [|done].
    rewrite lookup_app_l.
    + by rewrite !list_lookup_fmap, Hq.
    + rewrite !length_fmap. by eapply lookup_lt_Some.
Qed.

Lemma palette_table_roundtrip_witness :
  ∃ h w1,
    CreatePaletteFromRGBQUAD sample_table 3 static_world = Some (h, w1) ∧
    (h ≠ NULL ↔ heap_available (env static_world) = true ∧
                gdi_available (env static_world) = true) ∧
    (h ≠ NULL →
     ∃ out,
       CreateRGBQUADFromPalette (replicate 4 (mkRGBQUAD 9 9 9 9)) h w1
         = Some ((3, out), w1) ∧
       ∀ (i : nat) (q : RGBQUAD), sample_table !! i = Some q →
         ∃ q', out !! i = Some q' ∧
               quad_rgb q' = quad_rgb q ∧ rgbReserved q' = 0).
Proof.
  apply (palette_table_roundtrip static_world sample_table
           (replicate 4 (mkRGBQUAD 9 9 9 9)) 3).
  - lia.
  - reflexivity.
  - simpl. lia.
Defined.

(** C8.  The four assignments of the loop of [CreateRGBQUADFromPalette]
    (reserved := red; red := blue; blue := reserved; reserved := 0) give,
    on every entry, what exchanging red and blue and clearing the reserved
    byte gives. *)
Theorem to_RGBQUAD_assignments_is_swap (q : RGBQUAD) :
  to_RGBQUAD_assignments q = swap_red_blue_clear_reserved q.
Proof. destruct q as [b g r x]. reflexivity. Qed.

(** ** PalEntriesOnDevice and GetSystemPalette *)

(** C9.  [PalEntriesOnDevice] always answers a count and leaves the world
    as it was: the palette size the device reports or, when that is 0, the
    device's number of system colours (which may itself be 0). *)
Theorem PalEntriesOnDevice_count (hDC : HDC) (w : World) :
  ∃ n, PalEntriesOnDevice hDC w = Some (n, w) ∧
       (device_caps (env w) hDC SIZEPALETTE ≠ 0 →
        n = device_caps (env w) hDC SIZEPALETTE) ∧
       (device_caps (env w) hDC SIZEPALETTE = 0 →
        n = device_caps (env w) hDC NUMCOLORS).
Proof.
  unfold PalEntriesOnDevice. rewrite bind_run. unfold GetDeviceCaps.
  case_decide as Hsize.
  - eexists. split; [reflexivity|]. split; [done|]. done.
  - eexists. split; [reflexivity|]. split; [done|]. done.
Qed.

Lemma PalEntriesOnDevice_count_witness :
  PalEntriesOnDevice SCREEN_DC non_palette_world = Some (16, non_palette_world).
Proof.
  destruct (PalEntriesOnDevice_count SCREEN_DC non_palette_world) as (n & Hrun & _ & Hzero).
  rewrite Hrun. rewrite (Hzero eq_refl). reflexivity.
Defined.

Lemma PalEntriesOnDevice_run hDC w :
  PalEntriesOnDevice hDC w =
    Some (if decide (device_caps (env w) hDC SIZEPALETTE = 0)
          then device_caps (env w) hDC NUMCOLORS
          else device_caps (env w) hDC SIZEPALETTE, w).
Proof.
  unfold PalEntriesOnDevice. rewrite bind_run. unfold GetDeviceCaps.
  by case_decide.
Qed.

(** C5.  [GetSystemPalette] answers [NULL] (1) when no device context can be
    had, (2) when the raster capabilities of the device lack [RC_PALETTE],
    the context being released on that path, and (3) when the allocation of
    the descriptor fails; on that last path the context acquired is still
    open at the return and no [ReleaseDC] was made. *)
Theorem GetSystemPalette_null_paths (w : World) :
  (dc_available (env w) = false →
   ∃ w', GetSystemPalette w = Some (NULL, w') ∧
         dc_open w' = dc_open w ∧
         gdi_log w' = EvGetDC NULL :: gdi_log w) ∧
  (dc_available (env w) = true →
   Z.land (device_caps (env w) SCREEN_DC RASTERCAPS) RC_PALETTE = 0 →
   ∃ w', GetSystemPalette w = Some (NULL, w') ∧
         dc_open w' = dc_open w ∧
         gdi_log w' = EvReleaseDC SCREEN_DC :: EvGetDC SCREEN_DC :: gdi_log w) ∧
  (dc_available (env w) = true →
   Z.land (device_caps (env w) SCREEN_DC RASTERCAPS) RC_PALETTE ≠ 0 →
   heap_available (env w) = false →
   ∃ size w', GetSystemPalette w = Some (NULL, w') ∧
         dc_open w' = S (dc_open w) ∧
         gdi_log w' = EvGlobalAlloc size false :: EvGetDC SCREEN_DC :: gdi_log w).
Proof.
  split; [|split].
  - intros Hdc. unfold GetSystemPalette. rewrite bind_run.
    unfold GetDC_NULL. rewrite Hdc. rewrite decide_True by done.
    eexists. split; [reflexivity|]. done.
  - intros Hdc Hcaps. unfold GetSystemPalette. rewrite bind_run.
    unfold GetDC_NULL. rewrite Hdc. rewrite decide_False by done.
    rewrite bind_run. unfold GetDeviceCaps. world_simpl.
    rewrite decide_True by done.
    rewrite bind_run. unfold ReleaseDC. rewrite decide_True by done.
    eexists. split; [reflexivity|]. done.
  - intros Hdc Hcaps Hheap. unfold GetSystemPalette. rewrite bind_run.
    unfold GetDC_NULL. rewrite Hdc. rewrite decide_False by done.
    rewrite bind_run. unfold GetDeviceCaps. world_simpl.
    rewrite decide_False by done.
    rewrite bind_run, PalEntriesOnDevice_run.
    rewrite bind_run. unfold GlobalAlloc_GPTR. world_simpl. rewrite Hheap.
    eexists _, _. split; [reflexivity|]. done.
Qed.

Lemma GetSystemPalette_null_paths_witness :
  (∃ w', GetSystemPalette no_dc_world = Some (NULL, w') ∧
         dc_open w' = dc_open no_dc_world ∧
         gdi_log w' = EvGetDC NULL :: gdi_log no_dc_world) ∧
  (∃ w', GetSystemPalette non_palette_world = Some (NULL, w') ∧
         dc_open w' = dc_open non_palette_world ∧
         gdi_log w' = EvReleaseDC SCREEN_DC :: EvGetDC SCREEN_DC
                        :: gdi_log non_palette_world) ∧
  (∃ size w', GetSystemPalette no_heap_world = Some (NULL, w') ∧
         dc_open w' = S (dc_open no_heap_world) ∧
         gdi_log w' = EvGlobalAlloc size false :: EvGetDC SCREEN_DC
                        :: gdi_log no_heap_world).
Proof.
  split; [|split].
  - apply (GetSystemPalette_null_paths no_dc_world). reflexivity.
  - apply (GetSystemPalette_null_paths non_palette_world); reflexivity.
  - apply (GetSystemPalette_null_paths no_heap_world);
      [reflexivity | vm_compute; discriminate | reflexivity].
Defined.

(** ** CopyPalette and CopyPaletteEx *)

Lemma CopyPalette_run hPal w ents :
  palette_of w hPal = Some ents →
  Z.of_nat (length ents) < WORD_MOD →
  ∃ hNew w', CopyPalette hPal w = Some (hNew, w') ∧ env w' = env w ∧
    ((hNew = NULL ∧ palettes w' = palettes w ∧
      (heap_available (env w) = false ∨ gdi_available (env w) = false)) ∨
     (∃ p, hNew = Npos p ∧ palettes w !! p = None ∧
           palettes w' = <[p := ents]> (palettes w) ∧
           heap_available (env w) = true ∧ gdi_available (env w) = true)).
Proof.
  intros Hpal Hw. unfold CopyPalette.
  rewrite bind_run. unfold GetObject_WORD. rewrite Hpal.
  rewrite to_WORD_small by lia. cbv beta iota.
  rewrite bind_run. unfold rvalue. rewrite lift_run.
  rewrite bind_run. unfold GlobalAlloc_GPTR.
  destruct (heap_available (env w)) eqn:Hheap.
  - rewrite alloc_size_small by (unfold WORD_MOD in Hw; lia). cbv beta iota.
    set (w1 := record _ _). cbn [palPalEntry].
    rewrite bind_run. unfold GetPaletteEntries.
    change (palette_of w1 hPal) with (palette_of w hPal). rewrite Hpal.
    rewrite (read_entries_all ents)
      by (rewrite ?length_replicate; lia).
    cbv beta iota. rewrite to_WORD_small by lia.
    rewrite bind_run. unfold CreatePalette. cbn [palNumEntries palPalEntry].
    change (env w1) with (env w).
    destruct (gdi_available (env w)) eqn:Hgdi.
    + rewrite decide_True by (rewrite length_app; lia).
      cbv zeta. rewrite bind_run. unfold GlobalFree. rewrite ret_run.
      eexists _, _. split; [done|]. split; [done|]. right.
      exists (new_handle w1). split; [done|]. split; [apply (new_handle_fresh w1)|].
      split; [|done]. world_simpl.
      by rewrite Nat2Z.id, take_app_length.
    + rewrite bind_run. unfold GlobalFree. rewrite ret_run.
      eexists _, _. split; [done|]. split; [done|]. left. auto.
  - cbv beta iota. rewrite ret_run.
    eexists _, _. split; [done|]. split; [done|]. left. auto.
Qed.

Lemma CopyPaletteEx_run hPal bFlag w ents :
  palette_of w hPal = Some ents →
  Z.of_nat (length ents) ≤ MAXPALETTE →
  ∃ hNew w', CopyPaletteEx hPal bFlag w = Some (hNew, w') ∧
    ((hNew = NULL ∧ palettes w' = palettes w ∧
      (heap_available (env w) = false ∨ gdi_available (env w) = false)) ∨
     (∃ p, hNew = Npos p ∧ palettes w !! p = None ∧
           palettes w' = <[p := set_peFlags bFlag <$> ents]> (palettes w) ∧
           heap_available (env w) = true ∧ gdi_available (env w) = true)).
Proof.
  intros Hpal Hn. unfold MAXPALETTE in Hn. unfold CopyPaletteEx.
  rewrite bind_run. unfold auto_array. cbv beta iota.
  pose proof (length_indeterminate_array w) as Hpe. unfold MAXPALETTE in Hpe.
  set (pe := indeterminate_array w) in *.
  assert (hPal ≠ NULL) as Hnn by (intros ->; done).
  rewrite decide_False by done.
  rewrite bind_run. unfold GetObject_WORD at 1. rewrite Hpal.
  rewrite to_WORD_small by (unfold WORD_MOD; lia). cbv beta iota.
  rewrite decide_False by done.
  rewrite bind_run. unfold rvalue. rewrite lift_run.
  rewrite bind_run.
  destruct (CopyPalette_run hPal w ents Hpal) as (hNew & w1 & Hcopy & Henv & Hcase);
    [unfold WORD_MOD; lia|].
  rewrite Hcopy.
  destruct Hcase as [(-> & Hpals & Hfail)|(p & -> & Hfresh & Hpals & Hheap & Hgdi)].
  - rewrite bind_run. unfold GetPaletteEntries. cbn [palette_of NULL]. cbv beta iota.
    rewrite bind_run, lift_run, set_flags_loop by lia.
    rewrite bind_run. cbn [SetPaletteEntries_0 NULL]. rewrite ret_run.
    eexists _, _. split; [done|]. left. auto.
  - rewrite bind_run. unfold GetPaletteEntries. cbn [palette_of].
    rewrite Hpals, lookup_insert_eq.
    rewrite (read_entries_all ents) by lia. cbv beta iota.
    rewrite bind_run, lift_run, set_flags_loop by (rewrite length_app; lia).
    rewrite bind_run. cbn [SetPaletteEntries_0].
    rewrite Hpals, lookup_insert_eq.
    rewrite Nat2Z.id, Nat.min_id.
    rewrite decide_True
      by (rewrite length_app, length_fmap, length_take, length_app; lia).
    rewrite ret_run.
    eexists _, _. split; [done|]. right. exists p.
    split; [done|]. split; [done|]. split; [|done].
    world_simpl. rewrite insert_insert_eq. f_equal.
    rewrite take_app_length, drop_all, app_nil_r.
    rewrite take_app_length'; [done|]. by rewrite length_fmap.
Qed.

(** C6.  For a source palette of [n] entries (a palette holds at most
    [MAXPALETTE]) and a flag byte [F], [CopyPaletteEx] answers, when the
    copy can be made, a new handle, different from the source and from
    every palette there was, whose [n] entries have the red, green and blue
    of the source's and the flag [F], the source being left as it was; it
    answers [NULL] when the copy fails for want of memory or of a palette
    object, and when the handle given is [NULL] or no palette, so that its
    count cannot be asked. *)
Theorem CopyPaletteEx_flags (w : World) (hPal : HPALETTE) (F : Z) :
  (∀ ents, palette_of w hPal = Some ents →
     Z.of_nat (length ents) ≤ MAXPALETTE →
     ∃ hNew w', CopyPaletteEx hPal F w = Some (hNew, w') ∧
       (hNew ≠ NULL ↔ heap_available (env w) = true ∧ gdi_available (env w) = true) ∧
       (hNew ≠ NULL →
        hNew ≠ hPal ∧ palette_of w hNew = None ∧
        palette_of w' hPal = Some ents ∧
        ∃ ents', palette_of w' hNew = Some ents' ∧
                 length ents' = length ents ∧
                 ∀ (i : nat) e, ents !! i = Some e →
                   ∃ e', ents' !! i = Some e' ∧
                         peFlags e' = F ∧ pe_rgb e' = pe_rgb e)) ∧
  (palette_of w hPal = None → CopyPaletteEx hPal F w = Some (NULL, w)).
Proof.
  split.
  - intros ents Hpal Hn.
    destruct (CopyPaletteEx_run hPal F w ents Hpal Hn) as (hNew & w' & Hrun & Hcase).
    exists hNew, w'. split; [done|].
    destruct Hcase as [(-> & Hpals & Hfail)|(p & -> & Hfresh & Hpals & Hheap & Hgdi)].
    + split; [|done]. split; [done|]. intros [? ?]. destruct Hfail; congruence.
    + split; [done|]. intros _.
      assert (N.pos p ≠ hPal) as Hne.
      { intros <-. cbn [palette_of] in Hpal. congruence. }
      split; [done|]. split; [done|]. split.
      * destruct hPal as [|p']; [done|]. cbn [palette_of] in *.
        rewrite Hpals, lookup_insert_ne by congruence. done.
      * exists (set_peFlags F <$> ents). cbn [palette_of].
        rewrite Hpals, lookup_insert_eq. split; [done|].
        split; [by rewrite length_fmap|].
        intros i e He. exists (set_peFlags F e).
        rewrite list_lookup_fmap, He. done.
  - intros Hpal. unfold CopyPaletteEx. rewrite bind_run. unfold auto_array.
    cbv beta iota. case_decide as Hnull; [done|].
    rewrite bind_run. unfold GetObject_WORD. rewrite Hpal. cbv beta iota.
    by rewrite decide_True.
Qed.

Lemma CopyPaletteEx_flags_witness :
  (∃ hNew w', CopyPaletteEx 5%N 4 static_world = Some (hNew, w') ∧
     (hNew ≠ NULL ↔ heap_available (env static_world) = true ∧
                    gdi_available (env static_world) = true) ∧
     (hNew ≠ NULL →
      hNew ≠ 5%N ∧ palette_of static_world hNew = None ∧
      palette_of w' 5%N = Some [mkPALETTEENTRY 10 20 30 1; mkPALETTEENTRY 40 50 60 2] ∧
      ∃ ents', palette_of w' hNew = Some ents' ∧
               length ents' = 2%nat ∧
               ∀ (i : nat) e,
                 [mkPALETTEENTRY 10 20 30 1; mkPALETTEENTRY 40 50 60 2] !! i = Some e →
                 ∃ e', ents' !! i = Some e' ∧ peFlags e' = 4 ∧ pe_rgb e' = pe_rgb e)) ∧
  CopyPaletteEx NULL 4 static_world = Some (NULL, static_world).
Proof.
  split.
  - apply (proj1 (CopyPaletteEx_flags static_world 5%N 4)
             [mkPALETTEENTRY 10 20 30 1; mkPALETTEENTRY 40 50 60 2]).
    + reflexivity.
    + simpl. unfold MAXPALETTE. lia.
  - apply (proj2 (CopyPaletteEx_flags static_world NULL 4)). reflexivity.
Defined.

(** ** CreateIdentityPalette *)

Lemma identity_copy_body_upd tbl j b :
  0 ≤ j < Z.of_nat (length tbl) →
  identity_copy_body tbl j b = arr_upd (caller_entry tbl j) j b.
Proof.
  intros Hj. unfold identity_copy_body, caller_entry.
  destruct (lookup_lt_is_Some_2 tbl (Z.to_nat j)) as [q Hq]; [lia|].
  assert (arr_get tbl j = Some q) as ->.
  { rewrite <- (Z2Nat.id j) by lia. by apply arr_get_Some. }
  cbn. unfold arr_upd. by case_decide.
Qed.

(** Whatever the two loops did, a defined run of the [SYSPAL_NOSTATIC]
    branch ends with the two forced entries. *)
Lemma identity_nostatic_ends tbl n a a' :
  identity_nostatic tbl n a = Some a' →
  (255 < length a')%nat ∧
  a' !! 0%nat = Some black_static ∧ a' !! 255%nat = Some white_static.
Proof.
  unfold identity_nostatic. intros Hrun.
  destruct (for_loop 0 n _ a) as [a1|]; [|done]. cbn in Hrun.
  destruct (for_loop _ _ _ a1) as [a2|]; [|done]. cbn in Hrun.
  unfold arr_upd in Hrun at 2.
  case_decide as H255; [|done]. cbn in Hrun.
  unfold arr_upd in Hrun. rewrite length_alter in Hrun.
  rewrite decide_True in Hrun by lia. injection Hrun as <-.
  rewrite !length_alter.
  split; [lia|]. split.
  - change (Z.to_nat 0) with 0%nat. rewrite list_lookup_alter_eq.
    rewrite list_lookup_alter_ne by done.
    destruct (lookup_lt_is_Some_2 a2 0) as [e ->]; [lia|]. done.
  - change (Z.to_nat 0) with 0%nat. change (Z.to_nat 255) with 255%nat.
    rewrite list_lookup_alter_ne by done. rewrite list_lookup_alter_eq.
    destruct (lookup_lt_is_Some_2 a2 255) as [e ->]; [lia|]. done.
Qed.

Lemma identity_nostatic_defined tbl n a :
  length a = Z.to_nat MAXPALETTE →
  n ≤ MAXPALETTE → n ≤ Z.of_nat (length tbl) →
  ∃ a', identity_nostatic tbl n a = Some a' ∧ length a' = length a.
Proof.
  unfold MAXPALETTE. intros Ha Hn Ht. unfold identity_nostatic.
  destruct (for_loop_upd (identity_copy_body tbl) (caller_entry tbl) 0 n a)
    as (a1 & -> & Hl1 & _); [lia|lia| |].
  { intros j b Hj. apply identity_copy_body_upd. lia. }
  cbn.
  destruct (for_loop_upd (arr_upd (set_peFlags PC_NOCOLLAPSE))
              (λ _, set_peFlags PC_NOCOLLAPSE) (loop_exit 0 n) MAXPALETTE a1)
    as (a2 & -> & Hl2 & _); [unfold loop_exit; lia|unfold MAXPALETTE; lia|done|].
  cbn. unfold arr_upd. rewrite decide_True by lia. cbn.
  rewrite length_alter. rewrite decide_True by lia.
  eexists. split; [done|]. rewrite !length_alter. lia.
Qed.

(** The static branch slot by slot.  The copy loop reads the table and
    writes the array only when it runs at all. *)
Lemma identity_static_lookup tbl nColors N a :
  length a = Z.to_nat MAXPALETTE →
  0 ≤ int_div N 2 ≤ MAXPALETTE →
  INT_MIN ≤ nColors - int_div N 2 ≤ INT_MAX →
  (nColors - int_div N 2 ≤ int_div N 2 ∨
   (nColors - int_div N 2 ≤ MAXPALETTE ∧
    nColors - int_div N 2 ≤ Z.of_nat (length tbl))) →
  ∃ a', identity_static tbl nColors N a = Some a' ∧ length a' = length a ∧
    ∀ k : nat, a' !! k = static_slot tbl nColors (int_div N 2) (Z.of_nat k) <$> a !! k.
Proof.
  unfold MAXPALETTE. intros Ha HN Hint Hn. unfold identity_static.
  set (nS := int_div N 2) in *.
  destruct (for_loop_upd (arr_upd (set_peFlags 0)) (λ _, set_peFlags 0) 0 nS a)
    as (a1 & -> & Hl1 & Hk1); [lia|lia|done|].
  cbn. rewrite int_sub_Some by done. cbn.
  destruct (for_loop_upd (identity_copy_body tbl) (caller_entry tbl)
              (loop_exit 0 nS) (nColors - nS) a1)
    as (a2 & -> & Hl2 & Hk2); [unfold loop_exit; lia|unfold loop_exit; lia| |].
  { intros j b Hj. apply identity_copy_body_upd. unfold loop_exit in Hj. lia. }
  cbn.
  destruct (for_loop_upd (arr_upd (set_peFlags PC_NOCOLLAPSE))
              (λ _, set_peFlags PC_NOCOLLAPSE)
              (loop_exit (loop_exit 0 nS) (nColors - nS)) (MAXPALETTE - nS) a2)
    as (a3 & -> & Hl3 & Hk3); [unfold loop_exit; lia|unfold MAXPALETTE; lia|done|].
  cbn.
  destruct (for_loop_upd (arr_upd (set_peFlags 0)) (λ _, set_peFlags 0)
              (MAXPALETTE - nS) MAXPALETTE a3)
    as (a4 & -> & Hl4 & Hk4); [unfold MAXPALETTE; lia|unfold MAXPALETTE; lia|done|].
  exists a4. split; [done|]. split; [congruence|].
  intros k. rewrite Hk4, Hk3, Hk2, Hk1. unfold static_slot, loop_exit.
  destruct (a !! k) as [e|]; [|by repeat case_decide].
  repeat case_decide; try done; try lia.
Qed.

(** [CreateIdentityPalette] is its two device-context calls around the
    construction of the entry array. *)
Lemma CreateIdentityPalette_unfold lprgbq nColors w :
  CreateIdentityPalette lprgbq nColors w =
    match GetDC_NULL w with
    | Some (hDC, w1) =>
        match identity_descriptor lprgbq nColors w with
        | Some a =>
            (ReleaseDC hDC;; CreatePalette (mkLOGPALETTE 768 MAXPALETTE a)) w1
        | None => None
        end
    | None => None
    end.
Proof.
  unfold CreateIdentityPalette.
  destruct (GetDC_NULL_run w) as (w1 & Hdc & Henv1 & _).
  rewrite bind_run, Hdc. rewrite bind_run. unfold GetSystemPaletteUse at 1.
  rewrite Henv1. rewrite bind_run.
  unfold identity_descriptor. cbv zeta.
  change (palVersion Palette_init) with 768.
  change (palNumEntries Palette_init) with MAXPALETTE.
  case_decide as Huse.
  - rewrite lift_run. by destruct (identity_nostatic _ _ _).
  - rewrite bind_run. unfold GetDeviceCaps. rewrite bind_run.
    destruct (GetSystemPaletteEntries_snapshot (GetDC_result w) w1) as (got & ->).
    cbv beta iota. rewrite lift_run, Henv1.
    by destruct (identity_static _ _ _ _).
Qed.

Lemma CreateIdentityPalette_run lprgbq nColors w a :
  identity_descriptor lprgbq nColors w = Some a →
  length a = Z.to_nat MAXPALETTE →
  ∃ h w', CreateIdentityPalette lprgbq nColors w = Some (h, w') ∧
    gdi_log w' = EvCreatePalette (mkLOGPALETTE 768 MAXPALETTE a) h
                   :: EvReleaseDC (GetDC_result w) :: EvGetDC (GetDC_result w)
                   :: gdi_log w ∧
    dc_open w' = dc_open w ∧
    (h ≠ NULL ↔ gdi_available (env w) = true) ∧
    (h ≠ NULL → palette_of w h = None ∧ palette_of w' h = Some a).
Proof.
  intros Hdesc Hlen. rewrite CreateIdentityPalette_unfold, Hdesc.
  destruct (GetDC_NULL_run w)
    as (w1 & -> & Henv1 & Hpal1 & Hsel1 & Hheap1 & Hlog1 & Hopen1).
  destruct (ReleaseDC_GetDC_result w w1 Hopen1)
    as (w2 & Hrel & Henv2 & Hpal2 & Hsel2 & Hheap2 & Hlog2 & Hopen2).
  rewrite bind_run, Hrel.
  destruct (CreatePalette_run (mkLOGPALETTE 768 MAXPALETTE a) w2)
    as (h & w3 & Hcreate & Henv3 & Hsel3 & Hopen3 & Hheap3 & Hlog3 & Hcase).
  { cbn [palNumEntries palPalEntry]. rewrite Hlen. unfold MAXPALETTE. lia. }
  rewrite Hcreate. exists h, w3. split; [done|].
  split; [by rewrite Hlog3, Hlog2, Hlog1|].
  split; [congruence|].
  rewrite Henv2, Henv1, Hpal2, Hpal1 in Hcase.
  destruct Hcase as [(-> & Hgdi & _)|(p & -> & Hgdi & Hfresh & _ & Hpals)].
  - split; [|done]. split; [done|]. congruence.
  - split; [done|]. intros _. cbn [palette_of]. split; [done|].
    rewrite Hpals, lookup_insert_eq. cbn [palNumEntries palPalEntry].
    rewrite <- Hlen. by rewrite firstn_all.
Qed.

(** The descriptor of the static branch, slot by slot. *)
Lemma CreateIdentityPalette_static_slots lprgbq nColors w :
  let hdc := GetDC_result w in
  let nS := int_div (device_caps (env w) hdc NUMCOLORS) 2 in
  syspal_use (env w) hdc ≠ SYSPAL_NOSTATIC →
  0 ≤ nS ≤ MAXPALETTE →
  INT_MIN ≤ nColors - nS ≤ INT_MAX →
  (nColors - nS ≤ nS ∨
   (nColors - nS ≤ MAXPALETTE ∧ nColors - nS ≤ Z.of_nat (length lprgbq))) →
  ∃ a h w', CreateIdentityPalette lprgbq nColors w = Some (h, w') ∧
    gdi_log w' = EvCreatePalette (mkLOGPALETTE 768 MAXPALETTE a) h
                   :: EvReleaseDC hdc :: EvGetDC hdc :: gdi_log w ∧
    (h ≠ NULL → palette_of w' h = Some a) ∧
    length a = Z.to_nat MAXPALETTE ∧
    ∀ k : nat, a !! k = static_slot lprgbq nColors nS (Z.of_nat k)
                          <$> syspal_snapshot (env w) hdc !! k.
Proof.
  intros hdc nS Huse HnS Hint Hn.
  destruct (identity_static_lookup lprgbq nColors (device_caps (env w) hdc NUMCOLORS)
              (syspal_snapshot (env w) hdc))
    as (a & Hrun & Hlen & Hk); [apply length_syspal_snapshot|done..|].
  rewrite length_syspal_snapshot in Hlen.
  destruct (CreateIdentityPalette_run lprgbq nColors w a)
    as (h & w' & Hcreate & Hlog & _ & _ & Hpal); [|done|].
  { unfold identity_descriptor. cbv zeta. fold hdc. by rewrite decide_False. }
  exists a, h, w'. split; [done|]. split; [done|].
  split; [intros Hh; by apply Hpal|]. split; done.
Qed.

Lemma arr_upd_length {A} (g : A → A) i (a a' : list A) :
  arr_upd g i a = Some a' → length a' = length a.
Proof.
  unfold arr_upd. case_decide; [|done]. intros [= <-]. apply length_alter.
Qed.

Lemma for_range_length {A} (body : Z → list A → option (list A)) n : ∀ i a a',
  (∀ j b b', body j b = Some b' → length b' = length b) →
  for_range n i body a = Some a' → length a' = length a.
Proof.
  induction n as [|n IH]; intros i a a' Hbody; cbn [for_range].
  - by intros [= <-].
  - destruct (body i a) as [a1|] eqn:Hb; [|done]. intros Hrun.
    rewrite (IH _ _ _ Hbody Hrun). by eapply Hbody.
Qed.

Lemma identity_copy_body_length tbl j b b' :
  identity_copy_body tbl j b = Some b' → length b' = length b.
Proof.
  unfold identity_copy_body. destruct (arr_get tbl j); [|done]. cbn.
  apply arr_upd_length.
Qed.

Lemma identity_nostatic_length tbl n a a' :
  identity_nostatic tbl n a = Some a' → length a' = length a.
Proof.
  unfold identity_nostatic. intros Hrun.
  destruct (for_loop 0 n _ a) as [a1|] eqn:H1; [|done]. cbn in Hrun.
  destruct (for_loop _ _ _ a1) as [a2|] eqn:H2; [|done]. cbn in Hrun.
  destruct (arr_upd _ 255 a2) as [a3|] eqn:H3; [|done]. cbn in Hrun.
  apply arr_upd_length in Hrun, H3.
  apply for_range_length in H2; [|intros ???; apply arr_upd_length].
  apply for_range_length in H1; [|intros ???; apply identity_copy_body_length].
  congruence.
Qed.

(** A call that is defined has built its entry array and passed it on. *)
Lemma CreateIdentityPalette_defined_run lprgbq nColors w h w' :
  CreateIdentityPalette lprgbq nColors w = Some (h, w') →
  ∃ a, identity_descriptor lprgbq nColors w = Some a ∧
       gdi_log w' = EvCreatePalette (mkLOGPALETTE 768 MAXPALETTE a) h
                      :: EvReleaseDC (GetDC_result w) :: EvGetDC (GetDC_result w)
                      :: gdi_log w ∧
       (h ≠ NULL → palette_of w' h = Some (take (Z.to_nat MAXPALETTE) a)).
Proof.
  rewrite CreateIdentityPalette_unfold.
  destruct (GetDC_NULL_run w)
    as (w1 & -> & Henv1 & Hpal1 & Hsel1 & Hheap1 & Hlog1 & Hopen1).
  destruct (identity_descriptor lprgbq nColors w) as [a|]; [|done].
  destruct (ReleaseDC_GetDC_result w w1 Hopen1)
    as (w2 & Hrel & Henv2 & Hpal2 & Hsel2 & Hheap2 & Hlog2 & Hopen2).
  rewrite bind_run, Hrel. unfold CreatePalette. cbn [palNumEntries palPalEntry].
  destruct (gdi_available (env w2)).
  - case_decide; [|done]. cbv zeta. intros [= <- <-]. exists a.
    split; [done|]. world_simpl. split; [by rewrite Hlog2, Hlog1|].
    intros _. by rewrite lookup_insert_eq.
  - intros [= <- <-]. exists a. split; [done|]. world_simpl.
    split; [by rewrite Hlog2, Hlog1|]. intros H; by destruct H.
Qed.

(** C2.  Under [SYSPAL_NOSTATIC], for every table and count, whenever the
    call is defined the descriptor [CreateIdentityPalette] passes to
    [CreatePalette] has 256 entries, entry 0 exactly (0,0,0) with flag 0 and
    entry 255 exactly (255,255,255) with flag 0, whatever the table or the
    fill loops had put there, and a palette that is created holds these
    entries; the call is defined for every count of at most [MAXPALETTE]
    and at most the length of the table (beyond that the loops leave the
    arrays). *)
Theorem CreateIdentityPalette_nostatic_black_white
    (w : World) (lprgbq : list RGBQUAD) (nColors : Z) :
  syspal_use (env w) (GetDC_result w) = SYSPAL_NOSTATIC →
  (∀ h w', CreateIdentityPalette lprgbq nColors w = Some (h, w') →
     ∃ a,
       gdi_log w' = EvCreatePalette (mkLOGPALETTE 768 MAXPALETTE a) h
                      :: EvReleaseDC (GetDC_result w) :: EvGetDC (GetDC_result w)
                      :: gdi_log w ∧
       length a = 256%nat ∧
       a !! 0%nat = Some (mkPALETTEENTRY 0 0 0 0) ∧
       a !! 255%nat = Some (mkPALETTEENTRY 255 255 255 0) ∧
       (h ≠ NULL → palette_of w' h = Some a)) ∧
  (nColors ≤ MAXPALETTE → nColors ≤ Z.of_nat (length lprgbq) →
   ∃ h w', CreateIdentityPalette lprgbq nColors w = Some (h, w')).
Proof.
  intros Huse. split.
  - intros h w' Hrun.
    destruct (CreateIdentityPalette_defined_run _ _ _ _ _ Hrun) as (a & Hdesc & Hlog & Hpal).
    unfold identity_descriptor in Hdesc. cbv zeta in Hdesc.
    rewrite decide_True in Hdesc by done.
    pose proof (identity_nostatic_length _ _ _ _ Hdesc) as Hlen.
    rewrite length_Palette_init in Hlen.
    destruct (identity_nostatic_ends _ _ _ _ Hdesc) as (_ & H0 & H255).
    exists a. split; [exact Hlog|]. split; [exact Hlen|].
    split; [exact H0|]. split; [exact H255|].
    intros Hh. rewrite (Hpal Hh). f_equal. apply take_ge. rewrite Hlen. done.
  - intros Hn Ht.
    destruct (identity_nostatic_defined lprgbq nColors (palPalEntry Palette_init))
      as (a & Hrun & Hlen); [apply length_Palette_init|done..|].
    rewrite length_Palette_init in Hlen.
    destruct (CreateIdentityPalette_run lprgbq nColors w a)
      as (h & w' & Hcreate & _); [|done|by exists h, w'].
    unfold identity_descriptor. cbv zeta. by rewrite decide_True.
Qed.

Lemma CreateIdentityPalette_nostatic_black_white_witness :
  ∃ h w' a,
    CreateIdentityPalette sample_table 3 nostatic_world = Some (h, w') ∧
    gdi_log w' = EvCreatePalette (mkLOGPALETTE 768 MAXPALETTE a) h
                   :: EvReleaseDC (GetDC_result nostatic_world)
                   :: EvGetDC (GetDC_result nostatic_world)
                   :: gdi_log nostatic_world ∧
    length a = 256%nat ∧
    a !! 0%nat = Some (mkPALETTEENTRY 0 0 0 0) ∧
    a !! 255%nat = Some (mkPALETTEENTRY 255 255 255 0) ∧
    (h ≠ NULL → palette_of w' h = Some a).
Proof.
  destruct (CreateIdentityPalette_nostatic_black_white nostatic_world sample_table 3
              eq_refl) as [Hany Hdefined].
  destruct Hdefined as (h & w' & Hrun).
  - unfold MAXPALETTE. lia.
  - simpl. lia.
  - destruct (Hany h w' Hrun) as (a & Hprops). exists h, w', a.
    split; [exact Hrun|exact Hprops].
Defined.

(** C3, as the code has it.  Under [SYSPAL_STATIC] with [N] static colours,
    every remaining middle slot, from [N/2] and from [count - N/2] up to
    but excluding [256 - N/2], keeps the colour the system-palette query
    left in it and has its flag set to [PC_NOCOLLAPSE]: the loop writes the
    flag only.  The half [N/2] lies between 0 and [MAXPALETTE] and the
    count between 0 and [MAXPALETTE] and within the table, or the loops
    leave their arrays. *)
Theorem CreateIdentityPalette_static_middle_slots
    (w : World) (lprgbq : list RGBQUAD) (nColors : Z) :
  let hdc := GetDC_result w in
  let nS := int_div (device_caps (env w) hdc NUMCOLORS) 2 in
  syspal_use (env w) hdc = SYSPAL_STATIC →
  0 ≤ nS ≤ MAXPALETTE →
  0 ≤ nColors ≤ MAXPALETTE →
  nColors ≤ Z.of_nat (length lprgbq) →
  ∃ a h w',
    CreateIdentityPalette lprgbq nColors w = Some (h, w') ∧
    gdi_log w' = EvCreatePalette (mkLOGPALETTE 768 MAXPALETTE a) h
                   :: EvReleaseDC hdc :: EvGetDC hdc :: gdi_log w ∧
    ∀ k : nat,
      nS ≤ Z.of_nat k → nColors - nS ≤ Z.of_nat k → Z.of_nat k < MAXPALETTE - nS →
      ∃ e, syspal_snapshot (env w) hdc !! k = Some e ∧
           a !! k = Some (mkPALETTEENTRY (peRed e) (peGreen e) (peBlue e) PC_NOCOLLAPSE).
Proof.
  intros hdc nS Huse HnS Hn Ht.
  destruct (CreateIdentityPalette_static_slots lprgbq nColors w)
    as (a & h & w' & Hrun & Hlog & _ & Hlen & Hk).
  - fold hdc. rewrite Huse. done.
  - done.
  - fold hdc nS. unfold INT_MIN, INT_MAX, MAXPALETTE in *. lia.
  - fold hdc nS. right. lia.
  - exists a, h, w'. split; [done|]. split; [done|].
    intros k Hlo Hcount Hhi.
    destruct (lookup_lt_is_Some_2 (syspal_snapshot (env w) hdc) k) as [e He].
    { rewrite length_syspal_snapshot. unfold MAXPALETTE in *. lia. }
    exists e. split; [done|].
    rewrite Hk. fold hdc. rewrite He. cbn [fmap option_fmap option_map].
    f_equal. unfold static_slot. fold hdc nS.
    repeat case_decide; first [done | lia].
Qed.

Lemma CreateIdentityPalette_static_middle_slots_witness :
  ∃ a h w',
    CreateIdentityPalette long_table 100 static_world = Some (h, w') ∧
    gdi_log w' = EvCreatePalette (mkLOGPALETTE 768 MAXPALETTE a) h
                   :: EvReleaseDC SCREEN_DC :: EvGetDC SCREEN_DC
                   :: gdi_log static_world ∧
    ∀ k : nat,
      10 ≤ Z.of_nat k → 100 - 10 ≤ Z.of_nat k → Z.of_nat k < MAXPALETTE - 10 →
      ∃ e, syspal_snapshot (env static_world) SCREEN_DC !! k = Some e ∧
           a !! k = Some (mkPALETTEENTRY (peRed e) (peGreen e) (peBlue e) PC_NOCOLLAPSE).
Proof.
  apply (CreateIdentityPalette_static_middle_slots static_world long_table 100).
  - reflexivity.
  - vm_compute. split; discriminate.
  - unfold MAXPALETTE. lia.
  - vm_compute. discriminate.
Defined.

(** C3 as the specification words it does not hold: on the sample palette
    device (20 static colours, system slot 128 the grey 128) and a table of
    100 colours, slot 128 lies in the range [count - N/2 .. 256 - N/2), that
    is [90 .. 246), and the descriptor has the grey 128 there, not
    (0,0,0). *)
Lemma static_middle_slot_not_zero_filled :
  syspal_use (env static_world) (GetDC_result static_world) = SYSPAL_STATIC ∧
  device_caps (env static_world) (GetDC_result static_world) NUMCOLORS = 20 ∧
  ∃ a h w',
    CreateIdentityPalette long_table 100 static_world = Some (h, w') ∧
    gdi_log w' = [ EvCreatePalette (mkLOGPALETTE 768 MAXPALETTE a) h;
                   EvReleaseDC SCREEN_DC; EvGetDC SCREEN_DC ] ∧
    100 - int_div 20 2 ≤ 128 < 256 - int_div 20 2 ∧
    a !! 128%nat = Some (mkPALETTEENTRY 128 128 128 PC_NOCOLLAPSE) ∧
    a !! 128%nat ≠ Some (mkPALETTEENTRY 0 0 0 PC_NOCOLLAPSE).
Proof.
  split; [reflexivity|]. split; [reflexivity|].
  destruct (CreateIdentityPalette_static_slots long_table 100 static_world)
    as (a & h & w' & Hrun & Hlog & _ & _ & Hk).
  - vm_compute. discriminate.
  - vm_compute. split; discriminate.
  - vm_compute. split; discriminate.
  - right. vm_compute. split; discriminate.
  - exists a, h, w'. split; [done|]. split; [done|].
    split; [vm_compute; split; [discriminate|reflexivity]|].
    assert (a !! 128%nat = Some (mkPALETTEENTRY 128 128 128 PC_NOCOLLAPSE)) as H128.
    { rewrite Hk. vm_compute. reflexivity. }
    split; [done|]. rewrite H128. discriminate.
Qed.

(** A count of at most [N] gives the bound of the copy loop,
    [count - N/2 <= N/2] with the truncating half, for every [N] that is
    even or not positive; the static colours of a palette device come in
    two equal halves. *)
Lemma static_count_bound (N nColors : Z) :
  nColors ≤ N → Z.even N = true ∨ N ≤ 0 →
  nColors - int_div N 2 ≤ int_div N 2.
Proof.
  intros Hle HN. unfold int_div.
  pose proof (Z.quot_rem' N 2) as Hqr.
  destruct HN as [Hev|Hneg].
  - apply Z.even_spec in Hev as [k ->].
    rewrite Z.mul_comm, Z.quot_mul by lia. lia.
  - pose proof (Z.rem_bound_pos_neg N 2) as Hrem. lia.
Qed.

(** C10.  Under [SYSPAL_STATIC] with [N] static colours, whenever
    [count - N/2 <= N/2] for the truncating half [N/2] (the condition the
    claim gives; [count <= N] yields it by [static_count_bound]), the loop
    copying caller entries runs zero times: the call does the same whatever
    the table,
    and every slot of the descriptor has the colour of the system-palette
    snapshot, only flag bytes being written (0 or [PC_NOCOLLAPSE]).  The
    half [N/2] lies between 0 and [MAXPALETTE], or the flag loops leave the
    array, and [count - N/2] does not overflow. *)
Theorem CreateIdentityPalette_static_small_count
    (w : World) (lprgbq : list RGBQUAD) (nColors : Z) :
  let hdc := GetDC_result w in
  let nS := int_div (device_caps (env w) hdc NUMCOLORS) 2 in
  syspal_use (env w) hdc = SYSPAL_STATIC →
  0 ≤ nS ≤ MAXPALETTE →
  INT_MIN ≤ nColors - nS →
  nColors - nS ≤ nS →
  Z.to_nat ((nColors - nS) - loop_exit 0 nS) = 0%nat ∧
  ∃ a h w',
    CreateIdentityPalette lprgbq nColors w = Some (h, w') ∧
    gdi_log w' = EvCreatePalette (mkLOGPALETTE 768 MAXPALETTE a) h
                   :: EvReleaseDC hdc :: EvGetDC hdc :: gdi_log w ∧
    (∀ (k : nat) e, syspal_snapshot (env w) hdc !! k = Some e →
       ∃ e', a !! k = Some e' ∧ pe_rgb e' = pe_rgb e ∧
             (peFlags e' = 0 ∨ peFlags e' = PC_NOCOLLAPSE)) ∧
    (∀ lprgbq', CreateIdentityPalette lprgbq' nColors w = Some (h, w')).
Proof.
  intros hdc nS Huse HnS Hn Hsmall.
  split; [unfold loop_exit; lia|].
  assert (syspal_use (env w) hdc ≠ SYSPAL_NOSTATIC) as Huse' by (by rewrite Huse).
  assert (INT_MIN ≤ nColors - nS ≤ INT_MAX) as Hint
    by (unfold INT_MAX, MAXPALETTE in *; lia).
  assert (∀ t, identity_descriptor t nColors w = identity_descriptor lprgbq nColors w)
    as Hsame.
  { intros t. unfold identity_descriptor. cbv zeta. fold hdc.
    rewrite !decide_False by done.
    destruct (identity_static_lookup t nColors (device_caps (env w) hdc NUMCOLORS)
                (syspal_snapshot (env w) hdc))
      as (a1 & -> & Hl1 & Hk1); [apply length_syspal_snapshot|done|done|by left|].
    destruct (identity_static_lookup lprgbq nColors (device_caps (env w) hdc NUMCOLORS)
                (syspal_snapshot (env w) hdc))
      as (a2 & -> & Hl2 & Hk2); [apply length_syspal_snapshot|done|done|by left|].
    f_equal. apply list_eq. intros k. rewrite Hk1, Hk2.
    destruct (syspal_snapshot (env w) hdc !! k) as [e|]; [|done].
    cbn. f_equal. unfold static_slot. fold nS.
    repeat case_decide; first [done | lia]. }
  destruct (CreateIdentityPalette_static_slots lprgbq nColors w)
    as (a & h & w' & Hrun & Hlog & _ & Hlen & Hk); [done|done|done|by left|].
  exists a, h, w'. split; [done|]. split; [done|]. split.
  - intros k e He. rewrite Hk. fold hdc. rewrite He. cbn.
    apply lookup_lt_Some in He. rewrite length_syspal_snapshot in He.
    eexists. split; [reflexivity|]. unfold static_slot. fold nS.
    unfold MAXPALETTE in *.
    repeat case_decide; first [lia | auto].
  - intros t. rewrite CreateIdentityPalette_unfold, Hsame.
    rewrite <- CreateIdentityPalette_unfold. done.
Qed.

Lemma CreateIdentityPalette_static_small_count_witness :
  Z.to_nat ((3 - 10) - loop_exit 0 10) = 0%nat ∧
  ∃ a h w',
    CreateIdentityPalette sample_table 3 static_world = Some (h, w') ∧
    gdi_log w' = EvCreatePalette (mkLOGPALETTE 768 MAXPALETTE a) h
                   :: EvReleaseDC SCREEN_DC :: EvGetDC SCREEN_DC
                   :: gdi_log static_world ∧
    (∀ (k : nat) e, syspal_snapshot (env static_world) SCREEN_DC !! k = Some e →
       ∃ e', a !! k = Some e' ∧ pe_rgb e' = pe_rgb e ∧
             (peFlags e' = 0 ∨ peFlags e' = PC_NOCOLLAPSE)) ∧
    (∀ lprgbq', CreateIdentityPalette lprgbq' 3 static_world = Some (h, w')).
Proof.
  apply (CreateIdentityPalette_static_small_count static_world sample_table 3).
  - reflexivity.
  - vm_compute. split; discriminate.
  - vm_compute. discriminate.
  - vm_compute. discriminate.
Defined.

(** ** ClearSystemPalette *)

Lemma clear_loop :
  for_loop 0 MAXPALETTE
    (arr_upd (fun e => set_peFlags PC_NOCOLLAPSE
                         (set_peBlue 0 (set_peGreen 0 (set_peRed 0 e)))))
    (palPalEntry Palette_init)
  = Some (replicate (Z.to_nat MAXPALETTE) black_nocollapse).
Proof.
  destruct (for_loop_upd
              (arr_upd (fun e => set_peFlags PC_NOCOLLAPSE
                                   (set_peBlue 0 (set_peGreen 0 (set_peRed 0 e)))))
              (λ _ _, black_nocollapse) 0 MAXPALETTE (palPalEntry Palette_init))
    as (a & -> & Hl & Hk); [lia|rewrite length_Palette_init; unfold MAXPALETTE; lia|done|].
  f_equal. apply list_eq. intros k. rewrite Hk. unfold Palette_init. cbn [palPalEntry].
  destruct (decide (k < Z.to_nat MAXPALETTE)%nat).
  - rewrite decide_True by lia. by rewrite !lookup_replicate_2.
  - rewrite decide_False by lia.
    assert (replicate (Z.to_nat MAXPALETTE) zero_entry !! k = None) as ->
      by (apply lookup_replicate_None; lia).
    symmetry. apply lookup_replicate_None. lia.
Qed.

(** The three ways a call can go: no palette object; palette object and
    screen context; palette object but no screen context. *)
Lemma ClearSystemPalette_run w :
  ∃ T w', ClearSystemPalette w = Some (tt, w') ∧
    let lp := mkLOGPALETTE 768 MAXPALETTE
                (replicate (Z.to_nat MAXPALETTE) black_nocollapse) in
    let hdc := GetDC_result w in
    dc_open w' = dc_open w ∧ dc_palette w' = dc_palette w ∧
    palette_of w T = None ∧
    ((T = NULL ∧ gdi_available (env w) = false ∧ palettes w' = palettes w ∧
      env w' = env w ∧
      gdi_log w' = EvReleaseDC hdc :: EvCreatePalette lp NULL :: EvGetDC hdc
                     :: gdi_log w) ∨
     (T ≠ NULL ∧ gdi_available (env w) = true ∧ dc_available (env w) = true ∧
      palettes w' = palettes w ∧
      env w' = set_syspal SCREEN_DC
                 (realize (env w) (syspal (env w) SCREEN_DC) (Some (palPalEntry lp)))
                 (env w) ∧
      gdi_log w' = EvReleaseDC hdc :: EvDeleteObject T
                     :: EvSelectPalette hdc (Npos (dc_palette w)) T
                     :: EvRealizePalette hdc
                     :: EvSelectPalette hdc T (Npos (dc_palette w))
                     :: EvCreatePalette lp T :: EvGetDC hdc :: gdi_log w) ∨
     (T ≠ NULL ∧ gdi_available (env w) = true ∧ dc_available (env w) = false ∧
      palette_of w' T = Some (palPalEntry lp) ∧ env w' = env w ∧
      gdi_log w' = EvReleaseDC NULL :: EvDeleteObject NULL
                     :: EvSelectPalette NULL NULL NULL
                     :: EvRealizePalette NULL
                     :: EvSelectPalette NULL T NULL
                     :: EvCreatePalette lp T :: EvGetDC NULL :: gdi_log w)).
Proof.
  unfold ClearSystemPalette. rewrite bind_run, lift_run, clear_loop.
  destruct (GetDC_NULL_run w)
    as (w1 & Hdc & Henv1 & Hpal1 & Hsel1 & Hheap1 & Hlog1 & Hopen1).
  rewrite bind_run, Hdc.
  change (palVersion Palette_init) with 768.
  change (palNumEntries Palette_init) with MAXPALETTE.
  set (lp := mkLOGPALETTE 768 MAXPALETTE _).
  destruct (CreatePalette_run lp w1)
    as (T & w2 & Hcreate & Henv2 & Hsel2 & Hopen2 & Hheap2 & Hlog2 & Hcase).
  { subst lp. cbn [palNumEntries palPalEntry]. rewrite length_replicate.
    unfold MAXPALETTE. lia. }
  rewrite bind_run, Hcreate. rewrite bind_run.
  rewrite Henv1, Hpal1 in Hcase.
  destruct Hcase as [(-> & Hgdi & Hpals)|(p & -> & Hgdi & Hfresh & Hnsel & Hpals)].
  - rewrite decide_False by (intros H; by apply H). rewrite ret_run.
    destruct (ReleaseDC_GetDC_result w w2)
      as (w3 & Hrel & Henv3 & Hpal3 & Hsel3 & Hheap3 & Hlog3 & Hopen3);
      [congruence|].
    rewrite Hrel. exists NULL, w3. split; [done|]. cbv zeta.
    split; [done|]. split; [congruence|]. split; [done|].
    left. split; [done|]. split; [done|]. split; [congruence|].
    split; [congruence|]. by rewrite Hlog3, Hlog2, Hlog1.
  - rewrite decide_True by done.
    unfold GetDC_result in *. destruct (dc_available (env w)) eqn:Havail.
    + rewrite bind_run. cbn [SelectPalette]. rewrite decide_True by done.
      rewrite bind_run. unfold RealizePalette. rewrite decide_True by done.
      cbv zeta. world_simpl. rewrite bind_run.
      cbn [SelectPalette]. rewrite decide_True by done.
      world_simpl. rewrite bind_run. cbn [DeleteObject]. world_simpl.
      rewrite Hpals, lookup_insert_eq. rewrite ret_run.
      unfold ReleaseDC. rewrite decide_True by done.
      eexists (Npos p), _. split; [reflexivity|]. cbv zeta. world_simpl.
      split; [by rewrite Hopen2, Hopen1|].
      split; [congruence|]. split; [done|].
      right; left. split; [done|]. split; [done|]. split; [done|].
      split; [by rewrite delete_insert_id|].
      split.
      * rewrite Henv2, Henv1. subst lp. cbn [palNumEntries palPalEntry].
        rewrite take_ge by (by rewrite length_replicate). reflexivity.
      * by rewrite Hlog2, Hlog1, Hsel2, Hsel1.
    + rewrite bind_run. cbn [SelectPalette]. rewrite decide_False by done.
      rewrite bind_run. unfold RealizePalette. rewrite decide_False by done.
      rewrite bind_run.
      cbn [SelectPalette NULL]. rewrite bind_run. cbn [DeleteObject NULL].
      rewrite ret_run.
      unfold ReleaseDC. rewrite decide_False by done.
      eexists (Npos p), _. split; [reflexivity|]. cbv zeta. world_simpl.
      split; [by rewrite Hopen2, Hopen1|].
      split; [congruence|]. split; [done|].
      right; right. split; [done|]. split; [done|]. split; [done|].
      split; [|split; [congruence|by rewrite Hlog2, Hlog1]].
      rewrite Hpals, lookup_insert_eq. subst lp. cbn [palNumEntries palPalEntry].
      rewrite take_ge by (by rewrite length_replicate). done.
Qed.

(** What C7 says, where the screen device context is acquired: the
    context is released whether or not the all-black, all-no-collapse
    palette of 256 entries could be constructed; and whenever it could, the
    palette that was selected into the context before the call is selected
    into it afterwards (select, realize, select back) and the temporary
    palette is deleted, every other palette being left as it was. *)
Theorem ClearSystemPalette_restores_selection (w : World) :
  dc_available (env w) = true →
  ∃ T w',
    ClearSystemPalette w = Some (tt, w') ∧
    let lp := mkLOGPALETTE 768 MAXPALETTE (replicate 256 black_nocollapse) in
    dc_open w' = dc_open w ∧
    (T ≠ NULL ↔ gdi_available (env w) = true) ∧
    (T ≠ NULL →
       dc_palette w' = dc_palette w ∧
       palette_of w' T = None ∧ palettes w' = palettes w ∧
       gdi_log w' = [ EvReleaseDC SCREEN_DC; EvDeleteObject T;
                      EvSelectPalette SCREEN_DC (Npos (dc_palette w)) T;
                      EvRealizePalette SCREEN_DC;
                      EvSelectPalette SCREEN_DC T (Npos (dc_palette w));
                      EvCreatePalette lp T; EvGetDC SCREEN_DC ] ++ gdi_log w) ∧
    (T = NULL →
       gdi_log w' = [ EvReleaseDC SCREEN_DC; EvCreatePalette lp NULL;
                      EvGetDC SCREEN_DC ] ++ gdi_log w).
Proof.
  intros Hdc.
  destruct (ClearSystemPalette_run w) as (T & w' & Hrun & Hrest).
  cbv zeta in Hrest. unfold GetDC_result in Hrest. rewrite Hdc in Hrest.
  destruct Hrest as (Hopen & Hsel & Hfresh & Hcase).
  exists T, w'. split; [done|]. cbv zeta. split; [done|].
  destruct Hcase as [(-> & Hgdi & Hpals & _ & Hlog)
                    |[(HT & Hgdi & _ & Hpals & _ & Hlog)|(_ & _ & Hno & _)]];
    [| |discriminate Hno].
  - split; [split; [intros H; by destruct H|intros H; congruence]|].
    split; [intros H; by destruct H|]. intros _. exact Hlog.
  - split; [split; [intros _; exact Hgdi|intros _; exact HT]|].
    split; [|intros H; by destruct HT]. intros _.
    split; [exact Hsel|]. split; [|split; [exact Hpals|exact Hlog]].
    rewrite <- Hfresh. destruct T as [|p]; [reflexivity|].
    cbn [palette_of]. by rewrite Hpals.
Qed.

Lemma ClearSystemPalette_restores_selection_witness :
  ∃ T w',
    ClearSystemPalette static_world = Some (tt, w') ∧
    let lp := mkLOGPALETTE 768 MAXPALETTE (replicate 256 black_nocollapse) in
    dc_open w' = dc_open static_world ∧
    (T ≠ NULL ↔ gdi_available (env static_world) = true) ∧
    (T ≠ NULL →
       dc_palette w' = dc_palette static_world ∧
       palette_of w' T = None ∧ palettes w' = palettes static_world ∧
       gdi_log w' = [ EvReleaseDC SCREEN_DC; EvDeleteObject T;
                      EvSelectPalette SCREEN_DC (Npos (dc_palette static_world)) T;
                      EvRealizePalette SCREEN_DC;
                      EvSelectPalette SCREEN_DC T (Npos (dc_palette static_world));
                      EvCreatePalette lp T; EvGetDC SCREEN_DC ]
                    ++ gdi_log static_world) ∧
    (T = NULL →
       gdi_log w' = [ EvReleaseDC SCREEN_DC; EvCreatePalette lp NULL;
                      EvGetDC SCREEN_DC ] ++ gdi_log static_world).
Proof.
  apply (ClearSystemPalette_restores_selection static_world). reflexivity.
Defined.

(** C7 at the input where the routine misses it.  [ClearSystemPalette]
    does not test the answer of [GetDC(NULL)], as [GetSystemPalette] does.
    When no screen context can be had and the palette is constructed, both
    [SelectPalette] calls answer [NULL], the handle of the palette is
    overwritten with it, [DeleteObject] is handed [NULL], and the temporary
    palette, which the routine sets out to delete, is still there after the
    call. *)
Lemma ClearSystemPalette_without_dc_keeps_temporary :
  gdi_available (env no_dc_world) = true ∧
  ∃ T w',
    ClearSystemPalette no_dc_world = Some (tt, w') ∧
    let lp := mkLOGPALETTE 768 MAXPALETTE (replicate 256 black_nocollapse) in
    T ≠ NULL ∧
    gdi_log w' = [ EvReleaseDC NULL; EvDeleteObject NULL;
                   EvSelectPalette NULL NULL NULL;
                   EvRealizePalette NULL;
                   EvSelectPalette NULL T NULL;
                   EvCreatePalette lp T; EvGetDC NULL ] ∧
    palette_of no_dc_world T = None ∧
    palette_of w' T = Some (replicate 256 black_nocollapse).
Proof.
  split; [reflexivity|].
  destruct (ClearSystemPalette_run no_dc_world) as (T & w' & Hrun & Hrest).
  cbv zeta in Hrest.
  destruct Hrest as (_ & _ & Hfresh & Hcase).
  exists T, w'. split; [done|]. cbv zeta.
  destruct Hcase as [(_ & Hgdi & _)
                    |[(_ & _ & Hdc & _)|(HT & _ & _ & Hpal & _ & Hlog)]];
    [discriminate Hgdi|discriminate Hdc|].
  split; [exact HT|]. split; [exact Hlog|]. split; [exact Hfresh|]. exact Hpal.
Qed.

(** ** CreateSpectrumPalette *)

Lemma spectrum_counters_closed i :
  0 ≤ i → spectrum_counters (spectrum_rgb i) = spectrum_rgb (i + 1).
Proof.
  intros Hi. unfold spectrum_counters, spectrum_rgb, BYTE_add, to_BYTE, BYTE_MOD.
  replace (i / 64) with (i / 8 / 8) by (rewrite Z.div_div by lia; done).
  replace ((i + 1) / 64) with ((i + 1) / 8 / 8) by (rewrite Z.div_div by lia; done).
  assert (i mod 8 < 7 ∧ (i + 1) mod 8 = i mod 8 + 1 ∧ (i + 1) / 8 = i / 8 ∨
          i mod 8 = 7 ∧ (i + 1) mod 8 = 0 ∧ (i + 1) / 8 = i / 8 + 1) as Hr
    by (Z.div_mod_to_equations; lia).
  set (q := i / 8) in *.
  assert (q mod 8 < 7 ∧ (q + 1) mod 8 = q mod 8 + 1 ∧ (q + 1) / 8 = q / 8 ∨
          q mod 8 = 7 ∧ (q + 1) mod 8 = 0 ∧ (q + 1) / 8 = q / 8 + 1) as Hg
    by (Z.div_mod_to_equations; lia).
  set (p := q / 8) in *.
  assert (p mod 4 < 3 ∧ (p + 1) mod 4 = p mod 4 + 1 ∨
          p mod 4 = 3 ∧ (p + 1) mod 4 = 0) as Hb
    by (Z.div_mod_to_equations; lia).
  assert (0 ≤ i mod 8 < 8) by (apply Z.mod_pos_bound; lia).
  assert (0 ≤ q mod 8 < 8) by (apply Z.mod_pos_bound; lia).
  assert (0 ≤ p mod 4 < 4) by (apply Z.mod_pos_bound; lia).
  destruct Hr as [(Hr1 & -> & ->)|(Hr1 & -> & ->)].
  - rewrite (Z.mod_small (32 * (i mod 8) + 32)) by lia.
    rewrite decide_False by lia. fold q p. do 2 f_equal. lia.
  - rewrite Hr1. change ((32 * 7 + 32) mod 256) with 0. rewrite decide_True by done.
    destruct Hg as [(Hg1 & -> & ->)|(Hg1 & -> & ->)].
    + rewrite (Z.mod_small (32 * (q mod 8) + 32)) by lia.
      rewrite decide_False by lia. fold p. do 2 f_equal. lia.
    + rewrite Hg1. change ((32 * 7 + 32) mod 256) with 0. rewrite decide_True by done.
      f_equal.
      destruct Hb as [(Hb1 & ->)|(Hb1 & ->)].
      * rewrite Z.mod_small by lia. lia.
      * rewrite Hb1. done.
Qed.

(** The loop invariant: the counters before iteration [i] are
    [spectrum_rgb i], and the slots passed hold their closed form. *)
Lemma spectrum_range n : ∀ i a,
  0 ≤ i → (n ≠ 0%nat → i + Z.of_nat n ≤ Z.of_nat (length a)) →
  ∃ a', for_range n i spectrum_body (a, spectrum_rgb i)
          = Some (a', spectrum_rgb (i + Z.of_nat n)) ∧
        length a' = length a ∧
        ∀ k : nat, a' !! k =
          if decide (i ≤ Z.of_nat k < i + Z.of_nat n)
          then (λ _, spectrum_entry (Z.of_nat k)) <$> a !! k else a !! k.
Proof.
  induction n as [|n IH]; intros i a Hi Hlen.
  - exists a. rewrite Z.add_0_r. split; [done|split; [done|]].
    intros k. by rewrite decide_False by lia.
  - specialize (Hlen ltac:(done)). cbn [for_range].
    unfold spectrum_body at 1, spectrum_rgb at 1.
    rewrite arr_upd_Some by lia. cbn [mbind option_bind].
    change (32 * (i mod 8), 32 * (i / 8 mod 8), 64 * (i / 64 mod 4)) with (spectrum_rgb i).
    rewrite spectrum_counters_closed by done.
    destruct (IH (i + 1) (alter (λ _, spectrum_entry i) (Z.to_nat i) a))
      as (a' & Hrun & Hl & Hk); [lia|rewrite length_alter; lia|].
    exists a'. split.
    { etrans; [exact Hrun|]. do 3 f_equal. lia. }
    rewrite Hl, length_alter. split; [done|].
    intros k. rewrite Hk.
    destruct (decide (Z.to_nat i = k)) as [<-|Hne].
    + rewrite decide_False by lia. rewrite decide_True by lia.
      rewrite list_lookup_alter_eq. by rewrite Z2Nat.id by lia.
    + rewrite list_lookup_alter_ne by done.
      repeat case_decide; try done; lia.
Qed.

Lemma spectrum_loop a :
  length a = S (Z.to_nat MAXPALETTE) →
  ∃ a' c, for_loop 0 MAXPALETTE spectrum_body (a, (0, 0, 0)) = Some (a', c) ∧
          take (Z.to_nat MAXPALETTE) a' = spectrum_table ∧
          length a' = length a.
Proof.
  intros Ha. unfold for_loop.
  destruct (spectrum_range (Z.to_nat (MAXPALETTE - 0)) 0 a) as (a' & Hrun & Hl & Hk);
    [done|unfold MAXPALETTE in *; lia|].
  exists a', (spectrum_rgb (0 + Z.of_nat (Z.to_nat (MAXPALETTE - 0)))).
  split; [exact Hrun|]. split; [|done].
  apply list_eq. intros k. unfold spectrum_table.
  destruct (decide (k < Z.to_nat MAXPALETTE)%nat) as [Hlt|Hge].
  - rewrite lookup_take_lt by done. rewrite Hk.
    rewrite decide_True by (unfold MAXPALETTE in *; lia).
    rewrite list_lookup_fmap, lookup_seq_lt by done. cbn.
    destruct (lookup_lt_is_Some_2 a k) as [e ->]; [lia|]. done.
  - rewrite lookup_take_ge by lia.
    rewrite list_lookup_fmap, lookup_seq_ge by lia. done.
Qed.

Lemma spectrum_table_checked :
  Forall spectrum_slot_ok (zip (seq 0 256) spectrum_table).
Proof. apply (bool_decide_unpack _). vm_compute. exact I. Qed.

Lemma spectrum_table_slot (i : nat) e :
  spectrum_table !! i = Some e → spectrum_slot_ok (i, e).
Proof.
  intros He. apply (Forall_lookup_1 _ _ i (i, e) spectrum_table_checked).
  apply lookup_zip_Some. split; [|done].
  apply lookup_seq. split; [done|].
  apply lookup_lt_Some in He. unfold spectrum_table in He.
  rewrite length_fmap, length_seq in He. exact He.
Qed.

Lemma spectrum_table_lookup (i : nat) :
  (i < 256)%nat → spectrum_table !! i = Some (spectrum_entry (Z.of_nat i)).
Proof.
  intros Hi. unfold spectrum_table.
  rewrite list_lookup_fmap, lookup_seq_lt by done. done.
Qed.

(** C4.  [CreateSpectrumPalette] answers [NULL] without memory; with it, the
    descriptor it passes to [CreatePalette] has an entry count of 256 and
    the 256 entries of [spectrum_table], which a created palette then
    holds.  Every entry has flag 0; entry [i] is iterate [i] of the nested
    wrapping counter (red steps by 32 and goes back to 0 at 256, green
    steps likewise each time red wraps, blue steps by 64 each time green
    wraps); entry 0 is (0,0,0), entry 8 has red 0 and green 32; the red
    field takes the values 0, 32, ..., 224, each of them, and no other. *)
Theorem CreateSpectrumPalette_descriptor (w : World) :
  (∃ h w',
     CreateSpectrumPalette w = Some (h, w') ∧
     (heap_available (env w) = false → h = NULL) ∧
     (heap_available (env w) = true →
      ∃ lp,
        gdi_log w' = EvGlobalFree :: EvCreatePalette lp h
                       :: EvGlobalAlloc (alloc_size MAXPALETTE) true :: gdi_log w ∧
        palNumEntries lp = 256 ∧
        take 256 (palPalEntry lp) = spectrum_table ∧
        (h ≠ NULL ↔ gdi_available (env w) = true) ∧
        (h ≠ NULL → palette_of w' h = Some spectrum_table))) ∧
  length spectrum_table = 256%nat ∧
  (∀ (i : nat) e, spectrum_table !! i = Some e →
     peFlags e = 0 ∧
     pe_rgb e = Nat.iter i nested_counter (0, 0, 0) ∧
     ∃ j, 0 ≤ j < 8 ∧ peRed e = 32 * j) ∧
  (∀ j, 0 ≤ j < 8 →
     ∃ (i : nat) e, spectrum_table !! i = Some e ∧ peRed e = 32 * j) ∧
  spectrum_table !! 0%nat = Some (mkPALETTEENTRY 0 0 0 0) ∧
  spectrum_table !! 8%nat = Some (mkPALETTEENTRY 0 32 0 0).
Proof.
  split; [|split; [|split; [|split; [|split]]]].
  - unfold CreateSpectrumPalette. rewrite bind_run. unfold GlobalAlloc_GPTR.
    destruct (heap_available (env w)) eqn:Hheap.
    + rewrite alloc_size_small by (unfold MAXPALETTE; lia). cbv beta iota.
      set (w1 := record _ _). cbn [palPalEntry].
      destruct (spectrum_loop (replicate (S (Z.to_nat MAXPALETTE)) zero_entry))
        as (a & c & Hloop & Htake & Hlen); [apply length_replicate|].
      rewrite length_replicate in Hlen.
      rewrite bind_run, lift_run, Hloop. cbn [fst].
      rewrite to_WORD_small by (unfold MAXPALETTE, WORD_MOD; lia).
      destruct (CreatePalette_run (mkLOGPALETTE PALVERSION MAXPALETTE a) w1)
        as (h & w2 & Hcreate & Henv2 & _ & _ & _ & Hlog2 & Hcase).
      { cbn [palNumEntries palPalEntry]. rewrite Hlen. unfold MAXPALETTE. lia. }
      rewrite bind_run, Hcreate. rewrite bind_run. unfold GlobalFree. rewrite ret_run.
      eexists _, _. split; [reflexivity|]. split; [intros ?; discriminate|].
      intros _. exists (mkLOGPALETTE PALVERSION MAXPALETTE a).
      world_simpl. split; [by rewrite Hlog2|]. split; [done|].
      split; [exact Htake|].
      change (env w1) with (env w) in Hcase.
      destruct Hcase as [(-> & Hgdi & _)|(p & -> & Hgdi & _ & _ & Hpals)].
      * split; [split; [intros H; by destruct H|intros H]|intros H; by destruct H].
        rewrite Hgdi in H. discriminate H.
      * split; [split; [intros _; exact Hgdi|intros _; discriminate]|].
        intros _. world_simpl. rewrite Hpals, lookup_insert_eq.
        cbn [palNumEntries palPalEntry]. f_equal. exact Htake.
    + cbv beta iota. rewrite ret_run. eexists _, _. split; [reflexivity|].
      split; [done|]. intros ?; discriminate.
  - unfold spectrum_table. by rewrite length_fmap, length_seq.
  - intros i e He.
    destruct (spectrum_table_slot i e He) as (Hflag & Hiter & _ & Hmod & Hred).
    cbn [fst snd] in *. split; [done|]. split; [done|].
    exists (peRed e / 32). split; Z.div_mod_to_equations; lia.
  - intros j Hj. exists (Z.to_nat j), (spectrum_entry j).
    split.
    + rewrite spectrum_table_lookup by lia. by rewrite Z2Nat.id by lia.
    + unfold spectrum_entry, spectrum_rgb. cbn [peRed].
      rewrite Z.mod_small by lia. done.
  - reflexivity.
  - reflexivity.
Qed.

Lemma CreateSpectrumPalette_descriptor_witness :
  ∃ h w' lp,
    CreateSpectrumPalette static_world = Some (h, w') ∧
    gdi_log w' = EvGlobalFree :: EvCreatePalette lp h
                   :: EvGlobalAlloc (alloc_size MAXPALETTE) true
                   :: gdi_log static_world ∧
    palNumEntries lp = 256 ∧
    take 256 (palPalEntry lp) = spectrum_table ∧
    palette_of w' h = Some spectrum_table.
Proof.
  destruct (proj1 (CreateSpectrumPalette_descriptor static_world))
    as (h & w' & Hrun & _ & Hheap).
  destruct (Hheap eq_refl) as (lp & Hlog & Hn & Htake & Hnn & Hpal).
  exists h, w', lp. split; [exact Hrun|]. split; [exact Hlog|].
  split; [exact Hn|]. split; [exact Htake|].
  apply Hpal. apply Hnn. reflexivity.
Defined.

(** * Further properties *)

(** ** Bounds and unchecked answers *)

Lemma for_range_overrun {A} (body : Z → list A → option (list A)) (g : Z → A → A) n :
  ∀ i (a : list A),
    0 ≤ i ≤ Z.of_nat (length a) →
    Z.of_nat (length a) < i + Z.of_nat n →
    (∀ j b, i ≤ j ≤ Z.of_nat (length a) → body j b = arr_upd (g j) j b) →
    for_range n i body a = None.
Proof.
  induction n as [|n IH]; intros i a Hi Hn Hbody; [lia|].
  cbn [for_range]. rewrite Hbody by lia.
  destruct (decide (i = Z.of_nat (length a))) as [->|Hne].
  - unfold arr_upd. by rewrite decide_False by lia.
  - rewrite arr_upd_Some by lia.
    apply IH; [rewrite length_alter; lia|rewrite length_alter; lia|].
    intros j b Hj. rewrite length_alter in Hj. apply Hbody. lia.
Qed.

Lemma for_loop_overrun {A} (body : Z → list A → option (list A)) (g : Z → A → A)
    lo hi (a : list A) :
  0 ≤ lo ≤ Z.of_nat (length a) →
  Z.of_nat (length a) < hi →
  (∀ j b, lo ≤ j ≤ Z.of_nat (length a) → body j b = arr_upd (g j) j b) →
  for_loop lo hi body a = None.
Proof.
  intros Hlo Hhi Hbody. unfold for_loop.
  apply (for_range_overrun body g); [done|lia|done].
Qed.

(** X1.  [CreatePaletteFromRGBQUAD] has no bound on its count: once the block
    is allocated, a count above [MAXPALETTE] makes [CopyMemory] write past
    the 256 entries of the local [pe], and the call is undefined. *)
Theorem CreatePaletteFromRGBQUAD_overrun (w : World) (tbl : list RGBQUAD) (n : Z) :
  heap_available (env w) = true →
  MAXPALETTE < n ≤ 65535 →
  n ≤ Z.of_nat (length tbl) →
  CreatePaletteFromRGBQUAD tbl n w = None.
Proof.
  intros Hheap Hn Ht. unfold MAXPALETTE in Hn. unfold CreatePaletteFromRGBQUAD.
  rewrite bind_run. unfold auto_array. cbv beta iota.
  pose proof (length_indeterminate_array w) as Hpe. unfold MAXPALETTE in Hpe.
  rewrite bind_run. unfold GlobalAlloc_GPTR. rewrite Hheap.
  rewrite alloc_size_small by lia. cbv beta iota. cbn [palPalEntry].
  destruct (from_RGBQUAD_loop tbl n (replicate (S (Z.to_nat n)) zero_entry))
    as (ents & Hloop & Hlen & _); [lia|lia|rewrite length_replicate; lia|].
  rewrite bind_run, lift_run, Hloop.
  rewrite bind_run, lift_run. unfold CopyMemory.
  by rewrite decide_False by lia.
Qed.

Lemma CreatePaletteFromRGBQUAD_overrun_witness :
  CreatePaletteFromRGBQUAD oversize_table 300 static_world = None.
Proof.
  apply CreatePaletteFromRGBQUAD_overrun.
  - reflexivity.
  - unfold MAXPALETTE. lia.
  - vm_compute. discriminate.
Defined.

(** X2.  [CopyPaletteEx] on a palette of more than [MAXPALETTE] entries
    leaves its local [pe[MAXPALETTE]]: when the copy was made,
    [GetPaletteEntries] writes past it, and when it was not, the flag loop
    does.  The call is undefined either way. *)
Theorem CopyPaletteEx_overrun (w : World) (hPal : HPALETTE) (F : Z) ents :
  palette_of w hPal = Some ents →
  MAXPALETTE < Z.of_nat (length ents) < WORD_MOD →
  CopyPaletteEx hPal F w = None.
Proof.
  intros Hpal Hn. unfold MAXPALETTE, WORD_MOD in Hn. unfold CopyPaletteEx.
  rewrite bind_run. unfold auto_array. cbv beta iota.
  pose proof (length_indeterminate_array w) as Hpe. unfold MAXPALETTE in Hpe.
  set (pe := indeterminate_array w) in *.
  assert (hPal ≠ NULL) as Hnn by (intros ->; done).
  rewrite decide_False by done.
  rewrite bind_run. unfold GetObject_WORD at 1. rewrite Hpal.
  rewrite to_WORD_small by (unfold WORD_MOD; lia). cbv beta iota.
  rewrite decide_False by done.
  rewrite bind_run. unfold rvalue. rewrite lift_run.
  rewrite bind_run.
  destruct (CopyPalette_run hPal w ents Hpal) as (hNew & w1 & Hcopy & Henv & Hcase);
    [unfold WORD_MOD; lia|].
  rewrite Hcopy.
  destruct Hcase as [(-> & Hpals & Hfail)|(p & -> & Hfresh & Hpals & Hheap & Hgdi)].
  - rewrite bind_run. unfold GetPaletteEntries. cbn [palette_of NULL]. cbv beta iota.
    rewrite bind_run, lift_run.
    rewrite (for_loop_overrun _ (λ _, set_peFlags F)); [done|lia|lia|done].
  - rewrite bind_run. unfold GetPaletteEntries. cbn [palette_of].
    rewrite Hpals, lookup_insert_eq. unfold read_entries.
    change (Z.to_nat 0) with 0%nat. rewrite drop_0, Nat2Z.id, firstn_all.
    by rewrite decide_False by lia.
Qed.

Lemma CopyPaletteEx_overrun_witness :
  CopyPaletteEx 9%N 4 oversize_world = None.
Proof.
  apply (CopyPaletteEx_overrun oversize_world 9%N 4 (replicate 300 (mkPALETTEENTRY 1 2 3 0))).
  - reflexivity.
  - vm_compute. split; reflexivity.
Defined.

(** X3.  On a handle that is no palette, [CopyPalette] and
    [CreateRGBQUADFromPalette] use the count [GetObject] never stored (they
    do not test its answer): the calls are undefined.  [CopyPaletteEx]
    tests the same call and answers [NULL], the world left as it was. *)
Theorem unchecked_GetObject (w : World) (hPal : HPALETTE) (buf : list RGBQUAD) (F : Z) :
  palette_of w hPal = None →
  CopyPalette hPal w = None ∧
  CreateRGBQUADFromPalette buf hPal w = None ∧
  CopyPaletteEx hPal F w = Some (NULL, w).
Proof.
  intros Hpal. split; [|split].
  - unfold CopyPalette. rewrite bind_run. unfold GetObject_WORD. by rewrite Hpal.
  - unfold CreateRGBQUADFromPalette. rewrite bind_run. unfold GetObject_WORD.
    by rewrite Hpal.
  - unfold CopyPaletteEx. rewrite bind_run. unfold auto_array.
    cbv beta iota. case_decide as Hnull; [done|].
    rewrite bind_run. unfold GetObject_WORD. rewrite Hpal. cbv beta iota.
    by rewrite decide_True.
Qed.

Lemma unchecked_GetObject_witness :
  CopyPalette 77%N static_world = None ∧
  CreateRGBQUADFromPalette sample_table 77%N static_world = None ∧
  CopyPaletteEx 77%N 4 static_world = Some (NULL, static_world).
Proof. apply unchecked_GetObject. reflexivity. Defined.


(** X4.  [CreateRGBQUADFromPalette] on any palette that fits the buffer
    answers the palette's own count and leaves the world as it was; entry
    [i] of the buffer gets the colour of palette entry [i] in [RGBQUAD]
    order with reserved byte 0, whatever the entry's flag, and the buffer
    beyond the count and its length are unchanged. *)
Theorem CreateRGBQUADFromPalette_reads (w : World) (h : HPALETTE)
    (buf : list RGBQUAD) (ents : list PALETTEENTRY) :
  palette_of w h = Some ents →
  Z.of_nat (length ents) < WORD_MOD →
  (length ents ≤ length buf)%nat →
  ∃ out,
    CreateRGBQUADFromPalette buf h w = Some ((Z.of_nat (length ents), out), w) ∧
    length out = length buf ∧
    (∀ (i : nat) e, ents !! i = Some e →
       out !! i = Some (mkRGBQUAD (peBlue e) (peGreen e) (peRed e) 0)) ∧
    (∀ i : nat, (length ents ≤ i)%nat → out !! i = buf !! i).
Proof.
  intros Hpal Hn Hbuf.
  rewrite (CreateRGBQUADFromPalette_run buf h w ents Hpal Hn Hbuf).
  eexists. split; [reflexivity|]. split; [|split].
  - rewrite length_app, length_fmap, length_drop. lia.
  - intros i e He. rewrite lookup_app_l.
    + by rewrite list_lookup_fmap, He.
    + rewrite length_fmap. by eapply lookup_lt_Some.
  - intros i Hi. rewrite lookup_app_r by (by rewrite length_fmap).
    rewrite length_fmap, lookup_drop. f_equal. lia.
Qed.

Lemma CreateRGBQUADFromPalette_reads_witness :
  ∃ out,
    CreateRGBQUADFromPalette sample_table 5%N static_world
      = Some ((2, out), static_world) ∧
    length out = 3%nat ∧
    (∀ (i : nat) e,
       [mkPALETTEENTRY 10 20 30 1; mkPALETTEENTRY 40 50 60 2] !! i = Some e →
       out !! i = Some (mkRGBQUAD (peBlue e) (peGreen e) (peRed e) 0)) ∧
    (∀ i : nat, (2 ≤ i)%nat → out !! i = sample_table !! i).
Proof.
  apply (CreateRGBQUADFromPalette_reads static_world 5%N sample_table
           [mkPALETTEENTRY 10 20 30 1; mkPALETTEENTRY 40 50 60 2]).
  - reflexivity.
  - vm_compute. reflexivity.
  - simpl. lia.
Defined.

(** X5.  [CreateRGBQUADFromPalette] takes the count from the palette, not
    from the caller: with a buffer shorter than the palette,
    [GetPaletteEntries] writes past it and the call is undefined. *)
Theorem CreateRGBQUADFromPalette_short_buffer (w : World) (h : HPALETTE)
    (buf : list RGBQUAD) (ents : list PALETTEENTRY) :
  palette_of w h = Some ents →
  Z.of_nat (length ents) < WORD_MOD →
  (length buf < length ents)%nat →
  CreateRGBQUADFromPalette buf h w = None.
Proof.
  intros Hpal Hn Hbuf. unfold CreateRGBQUADFromPalette.
  rewrite bind_run. unfold GetObject_WORD. rewrite Hpal.
  rewrite to_WORD_small by lia.
  cbv beta iota. rewrite bind_run. unfold rvalue. rewrite lift_run.
  rewrite bind_run. unfold GetPaletteEntries. rewrite Hpal.
  unfold read_entries. change (Z.to_nat 0) with 0%nat.
  rewrite drop_0, Nat2Z.id, firstn_all.
  by rewrite decide_False by (rewrite length_fmap; lia).
Qed.

Lemma CreateRGBQUADFromPalette_short_buffer_witness :
  CreateRGBQUADFromPalette [mkRGBQUAD 0 0 0 0] 5%N static_world = None.
Proof.
  apply (CreateRGBQUADFromPalette_short_buffer static_world 5%N [mkRGBQUAD 0 0 0 0]
           [mkPALETTEENTRY 10 20 30 1; mkPALETTEENTRY 40 50 60 2]).
  - reflexivity.
  - vm_compute. reflexivity.
  - simpl. lia.
Defined.

Lemma entry_of_quad_of_entry e : entry_of_quad (quad_of_entry e) = set_peFlags 0 e.
Proof. reflexivity. Qed.

(** X6.  The round trip the other way: reading a palette of 1 to 256
    entries with [CreateRGBQUADFromPalette] and building a palette from that
    table with [CreatePaletteFromRGBQUAD] gives a new palette of the same
    length with the same colours and every flag 0; the flags do not
    survive. *)
Theorem palette_through_table_loses_flags (w : World) (h : HPALETTE)
    (buf : list RGBQUAD) (ents : list PALETTEENTRY) :
  palette_of w h = Some ents →
  1 ≤ Z.of_nat (length ents) ≤ MAXPALETTE →
  (length ents ≤ length buf)%nat →
  ∃ n out h' w',
    CreateRGBQUADFromPalette buf h w = Some ((n, out), w) ∧
    CreatePaletteFromRGBQUAD out n w = Some (h', w') ∧
    (h' ≠ NULL ↔ heap_available (env w) = true ∧ gdi_available (env w) = true) ∧
    (h' ≠ NULL →
     h' ≠ h ∧
     ∃ ents', palette_of w' h' = Some ents' ∧
              length ents' = length ents ∧
              ∀ (i : nat) e, ents !! i = Some e →
                ents' !! i = Some (mkPALETTEENTRY (peRed e) (peGreen e) (peBlue e) 0)).
Proof.
  intros Hpal Hn Hbuf. unfold MAXPALETTE in Hn.
  rewrite (CreateRGBQUADFromPalette_run buf h w ents Hpal)
    by (unfold WORD_MOD; lia).
  set (out := (quad_of_entry <$> ents) ++ drop (length ents) buf).
  destruct (CreatePaletteFromRGBQUAD_run out (Z.of_nat (length ents)) w)
    as (h' & w' & Hrun & _ & Hnn & Hres).
  { unfold MAXPALETTE. lia. }
  { subst out. rewrite length_app, length_fmap. lia. }
  exists (Z.of_nat (length ents)), out, h', w'.
  split; [done|]. split; [done|]. split; [done|].
  intros Hh'. destruct (Hres Hh') as [Hfresh Hpal'].
  split; [intros ->; congruence|].
  eexists. split; [exact Hpal'|].
  rewrite Nat2Z.id. subst out.
  rewrite take_app_length' by (by rewrite length_fmap).
  split; [by rewrite !length_fmap|].
  intros i e He. by rewrite !list_lookup_fmap, He.
Qed.

Lemma palette_through_table_loses_flags_witness :
  ∃ n out h' w',
    CreateRGBQUADFromPalette sample_table 5%N static_world
      = Some ((n, out), static_world) ∧
    CreatePaletteFromRGBQUAD out n static_world = Some (h', w') ∧
    (h' ≠ NULL ↔ heap_available (env static_world) = true ∧
                 gdi_available (env static_world) = true) ∧
    (h' ≠ NULL →
     h' ≠ 5%N ∧
     ∃ ents', palette_of w' h' = Some ents' ∧
              length ents' = 2%nat ∧
              ∀ (i : nat) e,
                [mkPALETTEENTRY 10 20 30 1; mkPALETTEENTRY 40 50 60 2] !! i = Some e →
                ents' !! i = Some (mkPALETTEENTRY (peRed e) (peGreen e) (peBlue e) 0)).
Proof.
  apply (palette_through_table_loses_flags static_world 5%N sample_table
           [mkPALETTEENTRY 10 20 30 1; mkPALETTEENTRY 40 50 60 2]).
  - reflexivity.
  - vm_compute. split; discriminate.
  - simpl. lia.
Defined.


(** X7.  [CopyPalette] of a palette answers a new handle, different from the
    source and from every palette there was, holding the source's entries
    with their flags, the source left as it was; it answers [NULL], with no
    palette added, exactly when memory or a palette object cannot be had.
    On every path the block is freed (also when [CreatePalette] fails) and
    the screen context is not touched. *)
Theorem CopyPalette_copies (w : World) (hPal : HPALETTE) (ents : list PALETTEENTRY) :
  palette_of w hPal = Some ents →
  Z.of_nat (length ents) < WORD_MOD →
  ∃ hNew w',
    CopyPalette hPal w = Some (hNew, w') ∧
    heap_live w' = heap_live w ∧ dc_open w' = dc_open w ∧
    dc_palette w' = dc_palette w ∧
    (hNew ≠ NULL ↔ heap_available (env w) = true ∧ gdi_available (env w) = true) ∧
    (hNew = NULL → palettes w' = palettes w) ∧
    (hNew ≠ NULL →
     hNew ≠ hPal ∧ palette_of w hNew = None ∧
     palette_of w' hNew = Some ents ∧ palette_of w' hPal = Some ents).
Proof.
  intros Hpal Hw. unfold CopyPalette.
  rewrite bind_run. unfold GetObject_WORD. rewrite Hpal.
  rewrite to_WORD_small by lia. cbv beta iota.
  rewrite bind_run. unfold rvalue. rewrite lift_run.
  rewrite bind_run. unfold GlobalAlloc_GPTR.
  destruct (heap_available (env w)) eqn:Hheap.
  - rewrite alloc_size_small by (unfold WORD_MOD in Hw; lia). cbv beta iota.
    set (w1 := record _ _). cbn [palPalEntry].
    rewrite bind_run. unfold GetPaletteEntries.
    change (palette_of w1 hPal) with (palette_of w hPal). rewrite Hpal.
    rewrite (read_entries_all ents)
      by (rewrite ?length_replicate; lia).
    cbv beta iota. rewrite to_WORD_small by lia.
    rewrite bind_run. unfold CreatePalette. cbn [palNumEntries palPalEntry].
    change (env w1) with (env w).
    destruct (gdi_available (env w)) eqn:Hgdi.
    + rewrite decide_True by (rewrite length_app; lia).
      cbv zeta. rewrite bind_run. unfold GlobalFree. rewrite ret_run.
      pose proof (new_handle_fresh w1) as Hfresh.
      change (palettes w1) with (palettes w) in Hfresh.
      eexists _, _. split; [reflexivity|]. world_simpl.
      split; [reflexivity|]. split; [reflexivity|]. split; [reflexivity|].
      split; [done|]. split; [intros [=]|]. intros _.
      assert (N.pos (new_handle w1) ≠ hPal) as Hne.
      { intros <-. cbn [palette_of] in Hpal. congruence. }
      split; [exact Hne|]. split; [exact Hfresh|].
      rewrite lookup_insert_eq, Nat2Z.id, take_app_length.
      split; [reflexivity|].
      destruct hPal as [|p']; [done|]. cbn [palette_of] in *. world_simpl.
      rewrite lookup_insert_ne by congruence. exact Hpal.
    + rewrite bind_run. unfold GlobalFree. rewrite ret_run.
      eexists _, _. split; [reflexivity|]. world_simpl.
      split; [reflexivity|]. split; [reflexivity|]. split; [reflexivity|].
      split; [split; [intros H; by destruct H|intros [_ [=]]]|].
      split; [reflexivity|]. intros H; by destruct H.
  - cbv beta iota. rewrite ret_run.
    eexists _, _. split; [reflexivity|]. world_simpl.
    split; [reflexivity|]. split; [reflexivity|]. split; [reflexivity|].
    split; [split; [intros H; by destruct H|intros [[=] _]]|].
    split; [reflexivity|]. intros H; by destruct H.
Qed.

Lemma CopyPalette_copies_witness :
  ∃ hNew w',
    CopyPalette 5%N static_world = Some (hNew, w') ∧
    heap_live w' = heap_live static_world ∧ dc_open w' = dc_open static_world ∧
    dc_palette w' = dc_palette static_world ∧
    (hNew ≠ NULL ↔ heap_available (env static_world) = true ∧
                   gdi_available (env static_world) = true) ∧
    (hNew = NULL → palettes w' = palettes static_world) ∧
    (hNew ≠ NULL →
     hNew ≠ 5%N ∧ palette_of static_world hNew = None ∧
     palette_of w' hNew = Some [mkPALETTEENTRY 10 20 30 1; mkPALETTEENTRY 40 50 60 2] ∧
     palette_of w' 5%N = Some [mkPALETTEENTRY 10 20 30 1; mkPALETTEENTRY 40 50 60 2]).
Proof.
  apply (CopyPalette_copies static_world 5%N
           [mkPALETTEENTRY 10 20 30 1; mkPALETTEENTRY 40 50 60 2]).
  - reflexivity.
  - vm_compute. reflexivity.
Defined.

(** X8.  [CreatePaletteFromRGBQUAD] with a count from 1 to 256 within the
    table answers a new palette of exactly that many entries, entry [i]
    having the red, green and blue of table entry [i] and flag 0 (the
    reserved byte is not read, entries past the count are not used); it
    answers [NULL], no palette added, exactly when memory or a palette
    object cannot be had; the block is freed on every path. *)
Theorem CreatePaletteFromRGBQUAD_builds (w : World) (tbl : list RGBQUAD) (n : Z) :
  1 ≤ n ≤ MAXPALETTE →
  n ≤ Z.of_nat (length tbl) →
  ∃ h w',
    CreatePaletteFromRGBQUAD tbl n w = Some (h, w') ∧
    heap_live w' = heap_live w ∧ dc_open w' = dc_open w ∧
    dc_palette w' = dc_palette w ∧
    (h ≠ NULL ↔ heap_available (env w) = true ∧ gdi_available (env w) = true) ∧
    (h = NULL → palettes w' = palettes w) ∧
    (h ≠ NULL →
     palette_of w h = None ∧
     ∃ ents, palette_of w' h = Some ents ∧
             Z.of_nat (length ents) = n ∧
             ∀ (i : nat) q, Z.of_nat i < n → tbl !! i = Some q →
               ents !! i = Some (mkPALETTEENTRY (rgbRed q) (rgbGreen q) (rgbBlue q) 0)).
Proof.
  intros Hn Ht. unfold MAXPALETTE in Hn. unfold CreatePaletteFromRGBQUAD.
  rewrite bind_run. unfold auto_array. cbv beta iota.
  pose proof (length_indeterminate_array w) as Hpe.
  rewrite bind_run. unfold GlobalAlloc_GPTR.
  destruct (heap_available (env w)) eqn:Hheap.
  - rewrite alloc_size_small by lia. cbv beta iota.
    set (w1 := record _ _).
    destruct (from_RGBQUAD_loop tbl n (replicate (S (Z.to_nat n)) zero_entry))
      as (ents & Hloop & Hlen & Hents); [lia|lia|rewrite length_replicate; lia|].
    rewrite length_replicate in Hlen.
    cbn [palPalEntry]. rewrite bind_run, lift_run, Hloop.
    rewrite bind_run, lift_run. unfold CopyMemory.
    rewrite decide_True by (unfold MAXPALETTE in Hpe; lia).
    rewrite bind_run. unfold CreatePalette. cbn [palNumEntries palPalEntry].
    change (env w1) with (env w).
    rewrite to_WORD_small by (unfold WORD_MOD; lia).
    destruct (gdi_available (env w)) eqn:Hgdi.
    + rewrite decide_True by lia. cbv zeta. rewrite bind_run.
      unfold GlobalFree. rewrite ret_run.
      pose proof (new_handle_fresh w1) as Hfresh.
      change (palettes w1) with (palettes w) in Hfresh.
      eexists _, _. split; [reflexivity|]. world_simpl.
      split; [reflexivity|]. split; [reflexivity|]. split; [reflexivity|].
      split; [done|]. split; [intros [=]|]. intros _.
      split; [exact Hfresh|]. rewrite lookup_insert_eq.
      eexists. split; [reflexivity|]. split.
      * rewrite length_take. lia.
      * intros i q Hi Hq. rewrite Hents, list_lookup_fmap.
        rewrite lookup_take_lt by lia. by rewrite Hq.
    + rewrite bind_run. unfold GlobalFree. rewrite ret_run.
      eexists _, _. split; [reflexivity|]. world_simpl.
      split; [reflexivity|]. split; [reflexivity|]. split; [reflexivity|].
      split; [split; [intros H; by destruct H|intros [_ [=]]]|].
      split; [reflexivity|]. intros H; by destruct H.
  - cbv beta iota. rewrite ret_run.
    eexists _, _. split; [reflexivity|]. world_simpl.
    split; [reflexivity|]. split; [reflexivity|]. split; [reflexivity|].
    split; [split; [intros H; by destruct H|intros [[=] _]]|].
    split; [reflexivity|]. intros H; by destruct H.
Qed.

Lemma CreatePaletteFromRGBQUAD_builds_witness :
  ∃ h w',
    CreatePaletteFromRGBQUAD sample_table 2 static_world = Some (h, w') ∧
    heap_live w' = heap_live static_world ∧ dc_open w' = dc_open static_world ∧
    dc_palette w' = dc_palette static_world ∧
    (h ≠ NULL ↔ heap_available (env static_world) = true ∧
                gdi_available (env static_world) = true) ∧
    (h = NULL → palettes w' = palettes static_world) ∧
    (h ≠ NULL →
     palette_of static_world h = None ∧
     ∃ ents, palette_of w' h = Some ents ∧
             Z.of_nat (length ents) = 2 ∧
             ∀ (i : nat) q, Z.of_nat i < 2 → sample_table !! i = Some q →
               ents !! i = Some (mkPALETTEENTRY (rgbRed q) (rgbGreen q) (rgbBlue q) 0)).
Proof.
  apply (CreatePaletteFromRGBQUAD_builds static_world sample_table 2).
  - unfold MAXPALETTE. lia.
  - simpl. lia.
Defined.


Lemma take_padded_snapshot (S : list PALETTEENTRY) (n : nat) :
  take n (take n S ++ drop (length (take n S)) (replicate (Datatypes.S n) zero_entry))
  = take n (S ++ replicate n zero_entry).
Proof.
  apply list_eq. intros k.
  destruct (decide (k < n)%nat) as [Hk|Hk].
  - rewrite !lookup_take_lt by done.
    destruct (decide (k < length S)%nat) as [HS|HS].
    + rewrite !lookup_app_l by (rewrite ?length_take; lia).
      by rewrite lookup_take_lt.
    + rewrite !lookup_app_r by (rewrite ?length_take; lia).
      rewrite lookup_drop, length_take.
      rewrite !lookup_replicate_2 by lia. done.
  - by rewrite !lookup_take_ge by lia.
Qed.

(** X9.  On a palette device, with memory, [GetSystemPalette] releases the
    context and frees the block whether or not [CreatePalette] succeeds; it
    answers [NULL] exactly when [CreatePalette] fails, and otherwise a new
    palette of [PalEntriesOnDevice] entries: the first entries of the
    system palette, padded with zero entries where the system palette is
    shorter. *)
Theorem GetSystemPalette_snapshot (w : World) :
  let n := if decide (device_caps (env w) SCREEN_DC SIZEPALETTE = 0)
           then device_caps (env w) SCREEN_DC NUMCOLORS
           else device_caps (env w) SCREEN_DC SIZEPALETTE in
  dc_available (env w) = true →
  Z.land (device_caps (env w) SCREEN_DC RASTERCAPS) RC_PALETTE ≠ 0 →
  heap_available (env w) = true →
  1 ≤ n ≤ 65535 →
  ∃ h w',
    GetSystemPalette w = Some (h, w') ∧
    dc_open w' = dc_open w ∧ heap_live w' = heap_live w ∧
    dc_palette w' = dc_palette w ∧
    (h ≠ NULL ↔ gdi_available (env w) = true) ∧
    (h = NULL → palettes w' = palettes w) ∧
    (h ≠ NULL →
     palette_of w h = None ∧
     palette_of w' h =
       Some (take (Z.to_nat n)
               (syspal (env w) SCREEN_DC ++ replicate (Z.to_nat n) zero_entry))).
Proof.
  intros n Hdc Hcaps Hheap Hn. unfold GetSystemPalette. rewrite bind_run.
  unfold GetDC_NULL. rewrite Hdc. rewrite decide_False by done.
  rewrite bind_run. unfold GetDeviceCaps. world_simpl.
  rewrite decide_False by done.
  rewrite bind_run, PalEntriesOnDevice_run. world_simpl. fold n.
  rewrite bind_run. unfold GlobalAlloc_GPTR. world_simpl. rewrite Hheap.
  rewrite alloc_size_small by lia. cbn [palPalEntry].
  rewrite bind_run. unfold GetSystemPaletteEntries, read_entries. world_simpl.
  assert (to_UINT n = n) as -> by (apply Z.mod_small; unfold SIZE_T_MOD; lia).
  change (Z.to_nat 0) with 0%nat. rewrite drop_0.
  rewrite decide_True by (rewrite length_take, length_replicate; lia).
  cbv beta iota. rewrite to_WORD_small by (unfold WORD_MOD; lia).
  rewrite bind_run. unfold CreatePalette. cbn [palNumEntries palPalEntry]. world_simpl.
  destruct (gdi_available (env w)) eqn:Hgdi.
  - rewrite decide_True
      by (rewrite length_app, length_drop, length_take, length_replicate; lia).
    cbv zeta. rewrite bind_run. unfold GlobalFree. rewrite bind_run.
    unfold ReleaseDC. rewrite decide_True by done. rewrite ret_run.
    set (w1 := record (EvGlobalAlloc _ true) _).
    pose proof (new_handle_fresh w1) as Hfresh.
    change (palettes w1) with (palettes w) in Hfresh.
    eexists _, _. split; [reflexivity|]. world_simpl.
    split; [reflexivity|]. split; [reflexivity|]. split; [reflexivity|].
    split; [done|]. split; [intros [=]|]. intros _.
    split; [exact Hfresh|]. rewrite lookup_insert_eq. f_equal.
    apply take_padded_snapshot.
  - rewrite bind_run. unfold GlobalFree. rewrite bind_run.
    unfold ReleaseDC. rewrite decide_True by done. rewrite ret_run.
    eexists _, _. split; [reflexivity|]. world_simpl.
    split; [reflexivity|]. split; [reflexivity|]. split; [reflexivity|].
    split; [split; [intros H; by destruct H|intros [=]]|].
    split; [reflexivity|]. intros H; by destruct H.
Qed.

Lemma GetSystemPalette_snapshot_witness :
  ∃ h w',
    GetSystemPalette static_world = Some (h, w') ∧
    dc_open w' = dc_open static_world ∧ heap_live w' = heap_live static_world ∧
    dc_palette w' = dc_palette static_world ∧
    (h ≠ NULL ↔ gdi_available (env static_world) = true) ∧
    (h = NULL → palettes w' = palettes static_world) ∧
    (h ≠ NULL →
     palette_of static_world h = None ∧
     palette_of w' h =
       Some (take (Z.to_nat 256)
               (syspal (env static_world) SCREEN_DC
                ++ replicate (Z.to_nat 256) zero_entry))).
Proof.
  apply (GetSystemPalette_snapshot static_world).
  - reflexivity.
  - vm_compute. discriminate.
  - reflexivity.
  - vm_compute. split; discriminate.
Defined.


Lemma identity_nostatic_interior tbl n (a : list PALETTEENTRY) :
  length a = Z.to_nat MAXPALETTE →
  n ≤ MAXPALETTE → n ≤ Z.of_nat (length tbl) →
  ∃ a', identity_nostatic tbl n a = Some a' ∧
    ∀ k : nat, (0 < k < 255)%nat →
      a' !! k = (if decide (Z.of_nat k < n)
                 then caller_entry tbl (Z.of_nat k)
                 else set_peFlags PC_NOCOLLAPSE) <$> a !! k.
Proof.
  unfold MAXPALETTE. intros Ha Hn Ht. unfold identity_nostatic.
  destruct (for_loop_upd (identity_copy_body tbl) (caller_entry tbl) 0 n a)
    as (a1 & -> & Hl1 & Hk1); [lia|lia| |].
  { intros j b Hj. apply identity_copy_body_upd. lia. }
  cbn.
  destruct (for_loop_upd (arr_upd (set_peFlags PC_NOCOLLAPSE))
              (λ _, set_peFlags PC_NOCOLLAPSE) (loop_exit 0 n) MAXPALETTE a1)
    as (a2 & -> & Hl2 & Hk2); [unfold loop_exit; lia|unfold MAXPALETTE; lia|done|].
  cbn. unfold arr_upd. rewrite decide_True by lia. cbn.
  rewrite length_alter. rewrite decide_True by lia.
  eexists. split; [reflexivity|].
  intros k Hk. change (Z.to_nat 0) with 0%nat. change (Z.to_nat 255) with 255%nat.
  rewrite !list_lookup_alter_ne by lia.
  rewrite Hk2, Hk1. unfold loop_exit, MAXPALETTE.
  destruct (a !! k) as [e|]; repeat case_decide; first [done | lia].
Qed.

(** X10.  Under [SYSPAL_NOSTATIC] the slots 1 to 254 of the descriptor of
    [CreateIdentityPalette] are: below the count, the caller's colour of
    the same index with [PC_NOCOLLAPSE]; from the count on, (0,0,0) with
    [PC_NOCOLLAPSE] (the zero of the initialiser). *)
Theorem CreateIdentityPalette_nostatic_interior
    (w : World) (lprgbq : list RGBQUAD) (nColors : Z) :
  syspal_use (env w) (GetDC_result w) = SYSPAL_NOSTATIC →
  nColors ≤ MAXPALETTE →
  nColors ≤ Z.of_nat (length lprgbq) →
  ∃ a h w',
    CreateIdentityPalette lprgbq nColors w = Some (h, w') ∧
    gdi_log w' = EvCreatePalette (mkLOGPALETTE 768 MAXPALETTE a) h
                   :: EvReleaseDC (GetDC_result w) :: EvGetDC (GetDC_result w)
                   :: gdi_log w ∧
    (h ≠ NULL → palette_of w' h = Some a) ∧
    ∀ k : nat, (0 < k < 255)%nat →
      (∀ q, Z.of_nat k < nColors → lprgbq !! k = Some q →
         a !! k = Some (mkPALETTEENTRY (rgbRed q) (rgbGreen q) (rgbBlue q) PC_NOCOLLAPSE)) ∧
      (nColors ≤ Z.of_nat k → a !! k = Some (mkPALETTEENTRY 0 0 0 PC_NOCOLLAPSE)).
Proof.
  intros Huse Hn Ht.
  destruct (identity_nostatic_interior lprgbq nColors (palPalEntry Palette_init))
    as (a & Hrun & Hk); [apply length_Palette_init|done..|].
  pose proof (identity_nostatic_length _ _ _ _ Hrun) as Hlen.
  rewrite length_Palette_init in Hlen.
  destruct (CreateIdentityPalette_run lprgbq nColors w a)
    as (h & w' & Hcreate & Hlog & _ & _ & Hpal); [|done|].
  { unfold identity_descriptor. cbv zeta. by rewrite decide_True. }
  exists a, h, w'. split; [done|]. split; [done|].
  split; [intros Hh; by apply Hpal|].
  intros k Hk'. rewrite (Hk k Hk').
  assert (palPalEntry Palette_init !! k = Some zero_entry) as ->.
  { unfold Palette_init. cbn [palPalEntry]. apply lookup_replicate_2.
    unfold MAXPALETTE. lia. }
  split.
  - intros q Hlt Hq. rewrite decide_True by done. cbn.
    unfold caller_entry. by rewrite (arr_get_Some _ _ _ Hq).
  - intros Hge. rewrite decide_False by lia. done.
Qed.

Lemma CreateIdentityPalette_nostatic_interior_witness :
  ∃ a h w',
    CreateIdentityPalette sample_table 3 nostatic_world = Some (h, w') ∧
    gdi_log w' = EvCreatePalette (mkLOGPALETTE 768 MAXPALETTE a) h
                   :: EvReleaseDC (GetDC_result nostatic_world)
                   :: EvGetDC (GetDC_result nostatic_world)
                   :: gdi_log nostatic_world ∧
    (h ≠ NULL → palette_of w' h = Some a) ∧
    ∀ k : nat, (0 < k < 255)%nat →
      (∀ q, Z.of_nat k < 3 → sample_table !! k = Some q →
         a !! k = Some (mkPALETTEENTRY (rgbRed q) (rgbGreen q) (rgbBlue q) PC_NOCOLLAPSE)) ∧
      (3 ≤ Z.of_nat k → a !! k = Some (mkPALETTEENTRY 0 0 0 PC_NOCOLLAPSE)).
Proof.
  apply (CreateIdentityPalette_nostatic_interior nostatic_world sample_table 3).
  - reflexivity.
  - unfold MAXPALETTE. lia.
  - simpl. lia.
Defined.

(** X11.  In the other branch (any answer of [GetSystemPaletteUse] but
    [SYSPAL_NOSTATIC]) both reserved halves of the descriptor, the slots
    below [N/2] and from [256 - N/2] on, have the colour of the
    system-palette snapshot and flag 0. *)
Theorem CreateIdentityPalette_static_reserved_halves
    (w : World) (lprgbq : list RGBQUAD) (nColors : Z) :
  let hdc := GetDC_result w in
  let nS := int_div (device_caps (env w) hdc NUMCOLORS) 2 in
  syspal_use (env w) hdc ≠ SYSPAL_NOSTATIC →
  0 ≤ nS ≤ MAXPALETTE →
  0 ≤ nColors ≤ MAXPALETTE →
  nColors ≤ Z.of_nat (length lprgbq) →
  ∃ a h w',
    CreateIdentityPalette lprgbq nColors w = Some (h, w') ∧
    gdi_log w' = EvCreatePalette (mkLOGPALETTE 768 MAXPALETTE a) h
                   :: EvReleaseDC hdc :: EvGetDC hdc :: gdi_log w ∧
    ∀ (k : nat) e,
      syspal_snapshot (env w) hdc !! k = Some e →
      Z.of_nat k < nS ∨ MAXPALETTE - nS ≤ Z.of_nat k →
      a !! k = Some (mkPALETTEENTRY (peRed e) (peGreen e) (peBlue e) 0).
Proof.
  intros hdc nS Huse HnS Hn Ht.
  destruct (CreateIdentityPalette_static_slots lprgbq nColors w)
    as (a & h & w' & Hrun & Hlog & _ & Hlen & Hk).
  - done.
  - done.
  - fold hdc nS. unfold INT_MIN, INT_MAX, MAXPALETTE in *. lia.
  - fold hdc nS. right. lia.
  - exists a, h, w'. split; [done|]. split; [done|].
    intros k e He Hrange. rewrite Hk. fold hdc. rewrite He. cbn.
    apply lookup_lt_Some in He. rewrite length_syspal_snapshot in He.
    f_equal. unfold static_slot. fold nS. unfold MAXPALETTE in *.
    repeat case_decide; first [done | lia].
Qed.

Lemma CreateIdentityPalette_static_reserved_halves_witness :
  ∃ a h w',
    CreateIdentityPalette long_table 100 static_world = Some (h, w') ∧
    gdi_log w' = EvCreatePalette (mkLOGPALETTE 768 MAXPALETTE a) h
                   :: EvReleaseDC SCREEN_DC :: EvGetDC SCREEN_DC
                   :: gdi_log static_world ∧
    ∀ (k : nat) e,
      syspal_snapshot (env static_world) SCREEN_DC !! k = Some e →
      Z.of_nat k < 10 ∨ MAXPALETTE - 10 ≤ Z.of_nat k →
      a !! k = Some (mkPALETTEENTRY (peRed e) (peGreen e) (peBlue e) 0).
Proof.
  apply (CreateIdentityPalette_static_reserved_halves static_world long_table 100).
  - vm_compute. discriminate.
  - vm_compute. split; discriminate.
  - unfold MAXPALETTE. lia.
  - vm_compute. discriminate.
Defined.


Lemma caller_entry_ext tbl tbl' (k : nat) e :
  tbl' !! k = tbl !! k →
  caller_entry tbl' (Z.of_nat k) e = caller_entry tbl (Z.of_nat k) e.
Proof.
  intros Heq. unfold caller_entry, arr_get.
  rewrite !decide_True by lia. by rewrite Nat2Z.id, Heq.
Qed.

(** X12.  In the static branch the caller's colour [k] lands in slot [k]
    itself, for [N/2 <= k < count - N/2], with [PC_NOCOLLAPSE]; the
    caller's entries outside that slice (its first [N/2] and its last
    [N/2]) are never read: two tables that agree on the slice give the
    same call. *)
Theorem CreateIdentityPalette_static_caller_slice
    (w : World) (lprgbq : list RGBQUAD) (nColors : Z) :
  let hdc := GetDC_result w in
  let nS := int_div (device_caps (env w) hdc NUMCOLORS) 2 in
  syspal_use (env w) hdc ≠ SYSPAL_NOSTATIC →
  0 ≤ nS ≤ MAXPALETTE →
  0 ≤ nColors ≤ MAXPALETTE →
  nColors ≤ Z.of_nat (length lprgbq) →
  ∃ a h w',
    CreateIdentityPalette lprgbq nColors w = Some (h, w') ∧
    gdi_log w' = EvCreatePalette (mkLOGPALETTE 768 MAXPALETTE a) h
                   :: EvReleaseDC hdc :: EvGetDC hdc :: gdi_log w ∧
    (∀ (k : nat) q,
       nS ≤ Z.of_nat k < nColors - nS → lprgbq !! k = Some q →
       a !! k = Some (mkPALETTEENTRY (rgbRed q) (rgbGreen q) (rgbBlue q) PC_NOCOLLAPSE)) ∧
    (∀ lprgbq',
       (∀ k : nat, nS ≤ Z.of_nat k < nColors - nS → lprgbq' !! k = lprgbq !! k) →
       CreateIdentityPalette lprgbq' nColors w = Some (h, w')).
Proof.
  intros hdc nS Huse HnS Hn Ht.
  assert (INT_MIN ≤ nColors - nS ≤ INT_MAX) as Hint
    by (unfold INT_MIN, INT_MAX, MAXPALETTE in *; lia).
  destruct (CreateIdentityPalette_static_slots lprgbq nColors w)
    as (a & h & w' & Hrun & Hlog & _ & Hlen & Hk);
    [done|done|done|fold hdc nS; right; unfold MAXPALETTE in *; lia|].
  exists a, h, w'. split; [done|]. split; [done|]. split.
  - intros k q Hrange Hq. rewrite Hk. fold hdc.
    destruct (lookup_lt_is_Some_2 (syspal_snapshot (env w) hdc) k) as [e ->].
    { rewrite length_syspal_snapshot. unfold MAXPALETTE in *. lia. }
    cbn. f_equal. unfold static_slot. fold nS. unfold MAXPALETTE in *.
    assert (∀ e', caller_entry lprgbq (Z.of_nat k) e'
                  = mkPALETTEENTRY (rgbRed q) (rgbGreen q) (rgbBlue q) PC_NOCOLLAPSE)
      as Hcaller.
    { intros e'. unfold caller_entry. by rewrite (arr_get_Some _ _ _ Hq). }
    repeat case_decide; first [lia | by rewrite ?Hcaller].
  - intros t Hagree. rewrite CreateIdentityPalette_unfold.
    assert (identity_descriptor t nColors w = identity_descriptor lprgbq nColors w) as ->;
      [|by rewrite <- CreateIdentityPalette_unfold].
    unfold identity_descriptor. cbv zeta. fold hdc.
    rewrite !decide_False by done.
    assert (nColors - nS ≤ nS ∨
            (nColors - nS ≤ MAXPALETTE ∧ nColors - nS ≤ Z.of_nat (length t))) as Hlen_t.
    { destruct (decide (nColors - nS ≤ nS)) as [?|Hgt]; [by left|right].
      split; [unfold MAXPALETTE in *; lia|].
      destruct (lookup_lt_is_Some_2 lprgbq (Z.to_nat (nColors - nS - 1))) as [q Hq]; [lia|].
      rewrite <- Hagree in Hq by lia.
      apply lookup_lt_Some in Hq. lia. }
    destruct (identity_static_lookup t nColors (device_caps (env w) hdc NUMCOLORS)
                (syspal_snapshot (env w) hdc))
      as (a1 & -> & Hl1 & Hk1); [apply length_syspal_snapshot|done|done|done|].
    destruct (identity_static_lookup lprgbq nColors (device_caps (env w) hdc NUMCOLORS)
                (syspal_snapshot (env w) hdc))
      as (a2 & -> & Hl2 & Hk2); [apply length_syspal_snapshot|done|done|right; lia|].
    f_equal. apply list_eq. intros k. rewrite Hk1, Hk2.
    destruct (syspal_snapshot (env w) hdc !! k) as [e|]; [|done].
    cbn. f_equal. unfold static_slot. fold nS.
    repeat case_decide;
      first [done | lia | by rewrite (caller_entry_ext lprgbq t) by (apply Hagree; lia)].
Qed.

Lemma CreateIdentityPalette_static_caller_slice_witness :
  ∃ a h w',
    CreateIdentityPalette long_table 100 static_world = Some (h, w') ∧
    gdi_log w' = EvCreatePalette (mkLOGPALETTE 768 MAXPALETTE a) h
                   :: EvReleaseDC SCREEN_DC :: EvGetDC SCREEN_DC
                   :: gdi_log static_world ∧
    (∀ (k : nat) q,
       10 ≤ Z.of_nat k < 100 - 10 → long_table !! k = Some q →
       a !! k = Some (mkPALETTEENTRY (rgbRed q) (rgbGreen q) (rgbBlue q) PC_NOCOLLAPSE)) ∧
    (∀ lprgbq',
       (∀ k : nat, 10 ≤ Z.of_nat k < 100 - 10 → lprgbq' !! k = long_table !! k) →
       CreateIdentityPalette lprgbq' 100 static_world = Some (h, w')).
Proof.
  apply (CreateIdentityPalette_static_caller_slice static_world long_table 100).
  - vm_compute. discriminate.
  - vm_compute. split; discriminate.
  - unfold MAXPALETTE. lia.
  - vm_compute. discriminate.
Defined.

(** X13.  Every defined call of [CreateIdentityPalette], with or without a
    screen context, leaves the count of open contexts, the heap and the
    selection as they were; it answers [NULL] exactly when [CreatePalette]
    fails, no palette being added then, and otherwise a handle that was no
    palette before. *)
Theorem CreateIdentityPalette_releases_dc
    (w : World) (lprgbq : list RGBQUAD) (nColors : Z) (h : HPALETTE) (w' : World) :
  CreateIdentityPalette lprgbq nColors w = Some (h, w') →
  dc_open w' = dc_open w ∧ heap_live w' = heap_live w ∧
  dc_palette w' = dc_palette w ∧
  (h = NULL ↔ gdi_available (env w) = false) ∧
  (h = NULL → palettes w' = palettes w) ∧
  (h ≠ NULL → palette_of w h = None ∧
              ∃ a, palette_of w' h = Some a ∧ (length a ≤ 256)%nat).
Proof.
  rewrite CreateIdentityPalette_unfold.
  destruct (GetDC_NULL_run w)
    as (w1 & -> & Henv1 & Hpal1 & Hsel1 & Hheap1 & Hlog1 & Hopen1).
  destruct (identity_descriptor lprgbq nColors w) as [a|]; [|done].
  destruct (ReleaseDC_GetDC_result w w1 Hopen1)
    as (w2 & Hrel & Henv2 & Hpal2 & Hsel2 & Hheap2 & Hlog2 & Hopen2).
  rewrite bind_run, Hrel. unfold CreatePalette. cbn [palNumEntries palPalEntry].
  rewrite Henv2, Henv1.
  destruct (gdi_available (env w)) eqn:Hgdi.
  - case_decide; [|done]. cbv zeta. intros [= <- <-]. world_simpl.
    split; [congruence|]. split; [congruence|]. split; [congruence|].
    split; [split; intros [=]|]. split; [intros [=]|]. intros _.
    split.
    + pose proof (new_handle_fresh w2) as Hf. by rewrite Hpal2, Hpal1 in Hf.
    + rewrite lookup_insert_eq. eexists. split; [reflexivity|].
      rewrite length_take. unfold MAXPALETTE. lia.
  - intros [= <- <-]. world_simpl.
    split; [congruence|]. split; [congruence|]. split; [congruence|].
    split; [done|]. split; [congruence|]. intros H; by destruct H.
Qed.

Lemma CreateIdentityPalette_releases_dc_witness :
  ∃ h w',
    CreateIdentityPalette sample_table 3 no_dc_world = Some (h, w') ∧
    dc_open w' = dc_open no_dc_world ∧ heap_live w' = heap_live no_dc_world ∧
    dc_palette w' = dc_palette no_dc_world ∧
    (h = NULL ↔ gdi_available (env no_dc_world) = false) ∧
    (h = NULL → palettes w' = palettes no_dc_world) ∧
    (h ≠ NULL → palette_of no_dc_world h = None ∧
                ∃ a, palette_of w' h = Some a ∧ (length a ≤ 256)%nat).
Proof.
  destruct (CreateIdentityPalette sample_table 3 no_dc_world) as [[h w']|] eqn:Hrun.
  - exists h, w'. split; [reflexivity|].
    exact (CreateIdentityPalette_releases_dc no_dc_world sample_table 3 h w' Hrun).
  - vm_compute in Hrun. discriminate Hrun.
Defined.


(** X14.  [ClearSystemPalette] is defined in every world; on every path,
    also without a screen context, the count of open contexts and the
    palette selected into the screen context are as before the call, and
    the palettes are as before unless a palette was made without a
    context.  The system palette is touched only when both the context and
    the palette were had, and then by one realization of the 256 black
    no-collapse entries; nothing else of the device changes. *)
Theorem ClearSystemPalette_all_paths (w : World) :
  ∃ w',
    ClearSystemPalette w = Some (tt, w') ∧
    dc_open w' = dc_open w ∧ dc_palette w' = dc_palette w ∧
    (gdi_available (env w) = false ∨ dc_available (env w) = true →
     palettes w' = palettes w) ∧
    env w' =
      (if dc_available (env w) && gdi_available (env w)
       then set_syspal SCREEN_DC
              (realize (env w) (syspal (env w) SCREEN_DC)
                 (Some (replicate 256 black_nocollapse)))
              (env w)
       else env w).
Proof.
  destruct (ClearSystemPalette_run w) as (T & w' & Hrun & Hrest).
  cbv zeta in Hrest. destruct Hrest as (Hopen & Hsel & _ & Hcase).
  exists w'. split; [exact Hrun|].
  split; [exact Hopen|]. split; [exact Hsel|].
  destruct Hcase as [(_ & Hgdi & Hpals & Henv & _)
                    |[(_ & Hgdi & Hdc & Hpals & Henv & _)
                     |(_ & Hgdi & Hdc & _ & Henv & _)]].
  - split; [intros _; exact Hpals|].
    rewrite Hgdi, andb_false_r. exact Henv.
  - split; [intros _; exact Hpals|].
    rewrite Hgdi, Hdc. exact Henv.
  - split; [|rewrite Hdc; exact Henv].
    intros [Hor|Hor]; rewrite Hor in *; discriminate.
Qed.

Lemma ClearSystemPalette_all_paths_witness :
  ∃ w',
    ClearSystemPalette static_world = Some (tt, w') ∧
    dc_open w' = dc_open static_world ∧
    dc_palette w' = dc_palette static_world ∧
    palettes w' = palettes static_world ∧
    syspal (env static_world) SCREEN_DC !! 128%nat = Some (mkPALETTEENTRY 128 128 128 7) ∧
    syspal (env w') SCREEN_DC !! 128%nat = Some black_nocollapse ∧
    syspal (env w') SCREEN_DC !! 5%nat = Some (mkPALETTEENTRY 5 5 5 7).
Proof.
  destruct (ClearSystemPalette_all_paths static_world)
    as (w' & Hrun & Ho & Hs & Hp & He).
  exists w'. split; [exact Hrun|]. split; [exact Ho|]. split; [exact Hs|].
  split; [apply Hp; right; reflexivity|].
  split; [reflexivity|].
  rewrite He. split; vm_compute; reflexivity.
Defined.

(** ** What the constructors leave alone *)

Section frame.
Lemma frame_refl w : frame w w.
Proof. by split; [|split]. Qed.

Lemma frame_trans w1 w2 w3 : frame w1 w2 → frame w2 w3 → frame w1 w3.
Proof.
  intros (He1 & Hs1 & Hp1) (He2 & Hs2 & Hp2).
  split; [congruence|]. split; [congruence|]. by etrans.
Qed.

Lemma keeps_ret {A} (a : A) : keeps_frame (mret a : GDI A).
Proof. intros w a' w' [= _ <-]. apply frame_refl. Qed.

Lemma keeps_bind {A B} (m : GDI A) (k : A → GDI B) :
  keeps_frame m → (∀ a, keeps_frame (k a)) → keeps_frame (m ≫= k).
Proof.
  intros Hm Hk w b w'. rewrite bind_run.
  destruct (m w) as [[a w1]|] eqn:Hrun; [|done]. intros Hrun'.
  eapply frame_trans; [by eapply Hm|by eapply Hk].
Qed.

Lemma keeps_lift {A} (o : option A) : keeps_frame (lift o).
Proof. intros w a w'. rewrite lift_run. destruct o; [|done]. intros [= _ <-]. apply frame_refl. Qed.

Lemma keeps_query {A} (m : GDI A) :
  (∀ w a w', m w = Some (a, w') → w' = w) → keeps_frame m.
Proof. intros Hm w a w' Hrun. rewrite (Hm _ _ _ Hrun). apply frame_refl. Qed.

Lemma keeps_GetDC_NULL : keeps_frame GetDC_NULL.
Proof.
  intros w a w'. unfold GetDC_NULL. destruct (dc_available (env w));
    intros [= _ <-]; by split; [|split].
Qed.

Lemma keeps_ReleaseDC hdc : keeps_frame (ReleaseDC hdc).
Proof.
  intros w a w'. unfold ReleaseDC. case_decide; intros [= _ <-]; by split; [|split].
Qed.

Lemma keeps_GetDeviceCaps hdc i : keeps_frame (GetDeviceCaps hdc i).
Proof. apply keeps_query. by intros w a w' [= _ <-]. Qed.

Lemma keeps_GetSystemPaletteUse hdc : keeps_frame (GetSystemPaletteUse hdc).
Proof. apply keeps_query. by intros w a w' [= _ <-]. Qed.

Lemma keeps_GetSystemPaletteEntries hdc s n buf :
  keeps_frame (GetSystemPaletteEntries hdc s n buf).
Proof.
  apply keeps_query. intros w a w'. unfold GetSystemPaletteEntries.
  destruct (read_entries _ _ _ _); [|done]. by intros [= _ <-].
Qed.

Lemma keeps_GetPaletteEntries h s n buf : keeps_frame (GetPaletteEntries h s n buf).
Proof.
  apply keeps_query. intros w a w'. unfold GetPaletteEntries.
  destruct (palette_of w h); [|by intros [= _ <-]].
  destruct (read_entries _ _ _ _); [|done]. by intros [= _ <-].
Qed.

Lemma keeps_GetObject_WORD h dst : keeps_frame (GetObject_WORD h dst).
Proof.
  apply keeps_query. intros w a w'. unfold GetObject_WORD.
  destruct (palette_of w h); by intros [= _ <-].
Qed.

Lemma keeps_auto_array : keeps_frame auto_array.
Proof. apply keeps_query. by intros w a w' [= _ <-]. Qed.

Lemma keeps_GlobalAlloc_GPTR size : keeps_frame (GlobalAlloc_GPTR size).
Proof.
  intros w a w'. unfold GlobalAlloc_GPTR. destruct (heap_available (env w));
    intros [= _ <-]; by split; [|split].
Qed.

Lemma keeps_GlobalFree : keeps_frame GlobalFree.
Proof. intros w a w' [= _ <-]. by split; [|split]. Qed.

Lemma keeps_CreatePalette lp : keeps_frame (CreatePalette lp).
Proof.
  intros w a w'. unfold CreatePalette. destruct (gdi_available (env w)).
  - case_decide; [|done]. cbv zeta. intros [= _ <-].
    split; [done|]. split; [done|]. world_simpl.
    apply insert_subseteq, new_handle_fresh.
  - intros [= _ <-]. by split; [|split].
Qed.

Lemma keeps_PalEntriesOnDevice hdc : keeps_frame (PalEntriesOnDevice hdc).
Proof.
  unfold PalEntriesOnDevice. apply keeps_bind; [apply keeps_GetDeviceCaps|].
  intros n. case_decide; [apply keeps_GetDeviceCaps|apply keeps_ret].
Qed.
End frame.

Ltac keeps_step :=
  first
    [ apply keeps_ret | apply keeps_lift | apply keeps_auto_array
    | apply keeps_GetDC_NULL | apply keeps_ReleaseDC | apply keeps_GetDeviceCaps
    | apply keeps_GetSystemPaletteUse | apply keeps_GetSystemPaletteEntries
    | apply keeps_GetPaletteEntries | apply keeps_GetObject_WORD
    | apply keeps_GlobalAlloc_GPTR | apply keeps_GlobalFree
    | apply keeps_CreatePalette | apply keeps_PalEntriesOnDevice
    | apply keeps_bind; [|intros ?]
    | case_decide
    | match goal with
      | |- keeps_frame (match ?x with _ => _ end) => destruct x
      | |- keeps_frame (let '(_, _) := ?x in _) => destruct x
      end ].

(** X15.  No defined call of [CreatePaletteFromRGBQUAD],
    [CreateRGBQUADFromPalette], [GetSystemPalette], [CreateSpectrumPalette],
    [CopyPalette] or [CreateIdentityPalette] deletes or changes a palette
    that was there, or changes the palette selected into the screen
    context. *)
Theorem constructors_keep_frame (lprgbq buf : list RGBQUAD) (n : Z) (hPal : HPALETTE) :
  keeps_frame (CreatePaletteFromRGBQUAD lprgbq n) ∧
  keeps_frame (CreateRGBQUADFromPalette buf hPal) ∧
  keeps_frame GetSystemPalette ∧
  keeps_frame CreateSpectrumPalette ∧
  keeps_frame (CopyPalette hPal) ∧
  keeps_frame (CreateIdentityPalette lprgbq n).
Proof.
  split; [|split; [|split; [|split; [|split]]]].
  - unfold CreatePaletteFromRGBQUAD. repeat keeps_step.
  - unfold CreateRGBQUADFromPalette. repeat keeps_step.
  - unfold GetSystemPalette. repeat keeps_step.
  - unfold CreateSpectrumPalette. repeat keeps_step.
  - unfold CopyPalette. repeat keeps_step.
  - unfold CreateIdentityPalette. repeat keeps_step.
Qed.


Lemma spectrum_table_NoDup : NoDup (pe_rgb <$> spectrum_table).
Proof. apply (bool_decide_unpack _). vm_compute. exact I. Qed.

Lemma spectrum_entry_cube r g b :
  0 ≤ r < 8 → 0 ≤ g < 8 → 0 ≤ b < 4 →
  spectrum_entry (r + 8 * g + 64 * b) = mkPALETTEENTRY (32 * r) (32 * g) (64 * b) 0.
Proof.
  intros Hr Hg Hb. unfold spectrum_entry, spectrum_rgb.
  assert ((r + 8 * g + 64 * b) mod 8 = r) as -> by (Z.div_mod_to_equations; lia).
  assert ((r + 8 * g + 64 * b) / 8 = g + 8 * b) as -> by (Z.div_mod_to_equations; lia).
  assert ((g + 8 * b) mod 8 = g) as -> by (Z.div_mod_to_equations; lia).
  assert ((r + 8 * g + 64 * b) / 64 = b) as -> by (Z.div_mod_to_equations; lia).
  rewrite (Z.mod_small b) by lia. done.
Qed.

(** X16.  With memory and a palette object, [CreateSpectrumPalette] answers a
    new palette of 256 pairwise distinct colours, the whole cube of 8 reds,
    8 greens and 4 blues: (32 r, 32 g, 64 b) is entry [r + 8 g + 64 b].  The
    block is freed. *)
Theorem CreateSpectrumPalette_colour_cube (w : World) :
  heap_available (env w) = true →
  gdi_available (env w) = true →
  ∃ h w' ents,
    CreateSpectrumPalette w = Some (h, w') ∧
    h ≠ NULL ∧ palette_of w h = None ∧ palette_of w' h = Some ents ∧
    heap_live w' = heap_live w ∧ dc_open w' = dc_open w ∧
    length ents = 256%nat ∧
    NoDup (pe_rgb <$> ents) ∧
    ∀ r g b, 0 ≤ r < 8 → 0 ≤ g < 8 → 0 ≤ b < 4 →
      ents !! Z.to_nat (r + 8 * g + 64 * b)
        = Some (mkPALETTEENTRY (32 * r) (32 * g) (64 * b) 0).
Proof.
  intros Hheap Hgdi.
  unfold CreateSpectrumPalette. rewrite bind_run. unfold GlobalAlloc_GPTR.
  rewrite Hheap.
  rewrite alloc_size_small by (unfold MAXPALETTE; lia). cbv beta iota.
  set (w1 := record _ _). cbn [palPalEntry].
  destruct (spectrum_loop (replicate (S (Z.to_nat MAXPALETTE)) zero_entry))
    as (a & c & Hloop & Htake & Hlen); [apply length_replicate|].
  rewrite length_replicate in Hlen.
  rewrite bind_run, lift_run, Hloop. cbn [fst].
  rewrite to_WORD_small by (unfold MAXPALETTE, WORD_MOD; lia).
  rewrite bind_run. unfold CreatePalette. cbn [palNumEntries palPalEntry].
  change (env w1) with (env w). rewrite Hgdi.
  rewrite decide_True by (rewrite Hlen; unfold MAXPALETTE; lia).
  cbv zeta. rewrite bind_run. unfold GlobalFree. rewrite ret_run.
  pose proof (new_handle_fresh w1) as Hfresh.
  change (palettes w1) with (palettes w) in Hfresh.
  exists (Npos (new_handle w1)). eexists. exists spectrum_table.
  split; [reflexivity|]. world_simpl.
  split; [discriminate|]. split; [exact Hfresh|].
  split; [rewrite lookup_insert_eq; f_equal; exact Htake|].
  split; [reflexivity|]. split; [reflexivity|].
  split; [unfold spectrum_table; by rewrite length_fmap, length_seq|].
  split; [exact spectrum_table_NoDup|].
  intros r g b Hr Hg Hb.
  rewrite spectrum_table_lookup by lia.
  rewrite Z2Nat.id by lia. f_equal. by apply spectrum_entry_cube.
Qed.

Lemma CreateSpectrumPalette_colour_cube_witness :
  ∃ h w' ents,
    CreateSpectrumPalette static_world = Some (h, w') ∧
    h ≠ NULL ∧ palette_of static_world h = None ∧ palette_of w' h = Some ents ∧
    heap_live w' = heap_live static_world ∧ dc_open w' = dc_open static_world ∧
    length ents = 256%nat ∧
    NoDup (pe_rgb <$> ents) ∧
    ∀ r g b, 0 ≤ r < 8 → 0 ≤ g < 8 → 0 ≤ b < 4 →
      ents !! Z.to_nat (r + 8 * g + 64 * b)
        = Some (mkPALETTEENTRY (32 * r) (32 * g) (64 * b) 0).
Proof.
  apply (CreateSpectrumPalette_colour_cube static_world); reflexivity.
Defined.

Lemma constructors_keep_frame_witness :
  ∃ h w', CopyPalette 5%N static_world = Some (h, w') ∧
          palettes static_world ⊆ palettes w' ∧
          dc_palette w' = dc_palette static_world.
Proof.
  destruct (CopyPalette 5%N static_world) as [[h w']|] eqn:Hrun.
  - exists h, w'. split; [reflexivity|].
    destruct (constructors_keep_frame [] [] 0 5%N) as (_ & _ & _ & _ & Hcopy & _).
    destruct (Hcopy static_world h w' Hrun) as (_ & Hsel & Hsub).
    split; [exact Hsub|exact Hsel].
  - vm_compute in Hrun. discriminate Hrun.
Defined.


(** X17.  [CreateIdentityPalette] has no bound on its count: under
    [SYSPAL_NOSTATIC] a count above 256, and in the other branch a
    [count - N/2] above 256, make the copy loop write past the 256 entries
    of [Palette.aEntries]; the call is undefined. *)
Theorem CreateIdentityPalette_overrun (w : World) (lprgbq : list RGBQUAD) (nColors : Z) :
  let hdc := GetDC_result w in
  let nS := int_div (device_caps (env w) hdc NUMCOLORS) 2 in
  nColors ≤ Z.of_nat (length lprgbq) →
  (syspal_use (env w) hdc = SYSPAL_NOSTATIC →
   MAXPALETTE < nColors →
   CreateIdentityPalette lprgbq nColors w = None) ∧
  (syspal_use (env w) hdc ≠ SYSPAL_NOSTATIC →
   0 ≤ nS ≤ MAXPALETTE →
   MAXPALETTE < nColors - nS ≤ INT_MAX →
   CreateIdentityPalette lprgbq nColors w = None).
Proof.
  intros hdc nS Ht. split.
  - intros Huse Hn. rewrite CreateIdentityPalette_unfold.
    destruct (GetDC_NULL_run w) as (w1 & -> & _).
    unfold identity_descriptor. cbv zeta. fold hdc. rewrite decide_True by done.
    unfold identity_nostatic.
    rewrite (for_loop_overrun _ (caller_entry lprgbq)); [done| | |].
    + rewrite length_Palette_init. unfold MAXPALETTE. lia.
    + rewrite length_Palette_init. unfold MAXPALETTE in *. lia.
    + intros j b Hj. apply identity_copy_body_upd.
      rewrite length_Palette_init in Hj. unfold MAXPALETTE in *. lia.
  - intros Huse HnS Hn. rewrite CreateIdentityPalette_unfold.
    destruct (GetDC_NULL_run w) as (w1 & -> & _).
    unfold identity_descriptor. cbv zeta. fold hdc. rewrite decide_False by done.
    unfold identity_static. fold nS.
    pose proof (length_syspal_snapshot (env w) hdc) as Hsnap.
    unfold MAXPALETTE in *.
    destruct (for_loop_upd (arr_upd (set_peFlags 0)) (λ _, set_peFlags 0) 0 nS
                (syspal_snapshot (env w) hdc))
      as (a1 & -> & Hl1 & _); [lia|lia|done|].
    cbn. rewrite int_sub_Some by (unfold INT_MIN; lia). cbn.
    rewrite (for_loop_overrun _ (caller_entry lprgbq)); [done| | |].
    + unfold loop_exit. lia.
    + lia.
    + intros j b Hj. apply identity_copy_body_upd. unfold loop_exit in Hj. lia.
Qed.

Lemma CreateIdentityPalette_overrun_witness :
  CreateIdentityPalette oversize_table 300 nostatic_world = None ∧
  CreateIdentityPalette oversize_table 300 static_world = None.
Proof.
  split.
  - refine (proj1 (CreateIdentityPalette_overrun nostatic_world oversize_table 300 _) _ _);
      vm_compute; first [reflexivity | discriminate].
  - refine (proj2 (CreateIdentityPalette_overrun static_world oversize_table 300 _) _ _ _);
      vm_compute;
      first [reflexivity | discriminate | split; first [reflexivity | discriminate]].
Defined.
